(** * The floating IP resource of the Oxide Terraform provider

    A shallow embedding of [internal/provider/resource_floating_ip.go]: the
    state model [floatingIpResourceModel], the schema, and the four lifecycle
    operations [Create], [Read], [Update] and [Delete], followed by the
    properties of the reconciliation protocol.

    The operations talk to three collaborators that live outside the file:
    the Terraform plugin framework (diagnostics, plan and state containers,
    the timeouts block), the Oxide SDK client, and two helpers of the
    provider package ([is404], [defaultTimeout]).  The framework is modelled
    concretely, as far as the resource observes it; the SDK client and the
    helpers are parameters. *)

From Stdlib Require Import ZArith String List.
From stdpp Require Import base option list strings gmap finite.

Local Open Scope string_scope.
Local Open Scope Z_scope.
Local Open Scope list_scope.

(** ** Go runtime *)

(** [time.Duration] is an [int64] count of nanoseconds. *)
Definition Duration : Type := Z.

(** [context.Context], as far as the resource shapes it: the ambient context
    handed in by the framework, and the children derived from it by
    [context.WithTimeout].  ([defer cancel()] releases the timer when the
    operation returns and has no effect on the result.) *)
Inductive Context : Type :=
| Ambient
| WithTimeout (parent : Context) (timeout : Duration).

(** What the Go runtime and standard library supply: the [error] interface
    with its [Error] method, [time.Time] with its [String] method, and
    [time.ParseDuration]. *)
Class GoRuntime : Type := {
error : Type;
Error : error → string;
Time : Type;
TimeString : Time → string;
ParseDuration : string → Duration + error;
}.

(** ** terraform-plugin-framework/types *)

Module types.

(** [types.String]: a string that may be null or unknown.  The zero value
    of the Go struct is the null string. *)
Inductive String : Type :=
  | StringNull
  | StringUnknown
  | StringValue (s : string).

#[global] Instance String_eq_dec : EqDecision String.
Proof. solve_decision. Defined.

(** [ValueString] returns the empty string for null and unknown. *)
Definition ValueString (v : String) : string :=
  match v with
  | StringValue s => s
  | StringNull | StringUnknown => EmptyString
  end.

Definition IsNull (v : String) : bool :=
  match v with StringNull => true | _ => false end.

Definition IsUnknown (v : String) : bool :=
  match v with StringUnknown => true | _ => false end.

End types.

(** ** terraform-plugin-framework/diag *)

Module diag.

Inductive Severity : Type := SeverityError | SeverityWarning.

#[global] Instance Severity_eq_dec : EqDecision Severity.
Proof. solve_decision. Defined.

Record Diagnostic : Type := {
  severity : Severity;
  Summary : string;
  Detail : string;
}.

#[global] Instance Diagnostic_eq_dec : EqDecision Diagnostic.
Proof. solve_decision. Defined.

Definition NewErrorDiagnostic (summary detail : string) : Diagnostic :=
  {| severity := SeverityError; Summary := summary; Detail := detail |}.

Definition Diagnostics : Type := list Diagnostic.

Definition Contains (diags : Diagnostics) (d : Diagnostic) : bool :=
  bool_decide (d ∈ diags).

(** [Append] adds the diagnostics that are not already in the collection,
    one after the other. *)
Definition Append (diags : Diagnostics) (new : list Diagnostic) : Diagnostics :=
  foldl (λ acc d, if Contains acc d then acc else acc ++ [d]) diags new.

Definition AddError (diags : Diagnostics) (summary detail : string) : Diagnostics :=
  Append diags [NewErrorDiagnostic summary detail].

Definition HasError (diags : Diagnostics) : bool :=
  existsb (λ d, bool_decide (severity d = SeverityError)) diags.

End diag.

(** ** terraform-plugin-framework-timeouts/resource/timeouts *)

Module timeouts.

(** [timeouts.Value] wraps an object whose attributes are the configured
    durations, as strings; a null object has no attributes. *)
Record Value : Type := { Attributes : gmap string types.String }.

(** [timeouts.Opts]: which of the four durations the block accepts. *)
Record Opts : Type := {
  OptCreate : bool;
  OptRead : bool;
  OptUpdate : bool;
  OptDelete : bool;
}.

#[global] Instance Value_eq_dec : EqDecision Value.
Proof. solve_decision. Defined.

(** [fmt]'s [%q] verb, for names that need no escaping. *)
Definition quote (s : string) : string :=
  String (Ascii.ascii_of_nat 34) (s +:+ String (Ascii.ascii_of_nat 34) EmptyString).

Section getTimeout.
Context `{GoRuntime}.

(** Modelled from the spec: the timeout resolver, which the provider takes
    from the timeouts library and whose code is not part of the repository.
    It returns the default when the duration of the operation is missing,
    null or unknown, the parsed duration when the configured string parses,
    and the default together with an error diagnostic when it does not. *)
Definition getTimeout (t : Value) (timeoutName : string) (defaultTimeout : Duration)
  : Duration * diag.Diagnostics :=
  match Attributes t !! timeoutName with
  | None => (defaultTimeout, [])
  | Some value =>
      if types.IsNull value || types.IsUnknown value then (defaultTimeout, [])
      else
        match ParseDuration (types.ValueString value) with
        | inl d => (d, [])
        | inr err =>
            (defaultTimeout,
             [diag.NewErrorDiagnostic "Timeout Cannot Be Parsed"
                ("timeout for " +:+ quote timeoutName +:+ " cannot be parsed, " +:+ Error err)])
        end
  end.

Definition Create (t : Value) := getTimeout t "create".
Definition Read (t : Value) := getTimeout t "read".
Definition Update (t : Value) := getTimeout t "update".
Definition Delete (t : Value) := getTimeout t "delete".
End getTimeout.

End timeouts.

(** ** oxide.go/oxide: the SDK's request and response types *)

Module oxide.

Definition Name : Type := string.
Definition NameOrId : Type := string.

(** Modelled from the spec: the object the remote client returns, a struct
    of the SDK whose declaration is not part of the repository.  It has the
    fields the resource reads and [InstanceId], the identity of the instance
    the address is bound to, empty if unattached.  The timestamps are taken
    to be present, as they are in every answer of the platform. *)
Record FloatingIp `{GoRuntime} : Type := {
  Description : string;
  Id : string;
  InstanceId : string;
  Ip : string;
  IpPoolId : string;
  FloatingIpName : Name;
  ProjectId : string;
  TimeCreated : Time;
  TimeModified : Time;
}.

Record FloatingIpCreate : Type := {
  CreateDescription : string;
  CreateIp : string;
  CreateName : Name;
  CreatePool : NameOrId;
}.

Record FloatingIpCreateParams : Type := {
  Project : NameOrId;
  Body : FloatingIpCreate;
}.

Record FloatingIpViewParams : Type := { ViewFloatingIp : NameOrId }.

Record FloatingIpDeleteParams : Type := { DeleteFloatingIp : NameOrId }.

(** The methods of [oxide.Client] that the resource calls.  The platform
    behind the client is a state of type [World]; each call answers and moves
    it. *)
Module Client.

Class Client `{GoRuntime} : Type := {
  World : Type;
  FloatingIpCreate :
    Context → FloatingIpCreateParams → World → (FloatingIp + error) * World;
  FloatingIpView :
    Context → FloatingIpViewParams → World → (FloatingIp + error) * World;
  FloatingIpDelete :
    Context → FloatingIpDeleteParams → World → option error * World;
}.

End Client.

End oxide.

(** ** The state model *)

Record floatingIpResourceModel : Type := {
  ID : types.String;
  Name : types.String;
  Description : types.String;
  ProjectID : types.String;
  IPPoolID : types.String;
  IP : types.String;
  TimeCreated : types.String;
  TimeModified : types.String;
  Timeouts : timeouts.Value;
}.

#[global] Instance floatingIpResourceModel_eq_dec : EqDecision floatingIpResourceModel.
Proof. solve_decision. Defined.

(** The fields of the struct, and the [tfsdk] tag each one carries. *)
Inductive modelField : Type :=
  | FieldID | FieldName | FieldDescription | FieldProjectID | FieldIPPoolID
  | FieldIP | FieldTimeCreated | FieldTimeModified | FieldTimeouts.

#[global] Instance modelField_eq_dec : EqDecision modelField.
Proof. solve_decision. Defined.

Definition modelFields : list modelField :=
  [FieldID; FieldName; FieldDescription; FieldProjectID; FieldIPPoolID;
   FieldIP; FieldTimeCreated; FieldTimeModified; FieldTimeouts].

Definition tfsdkTag (f : modelField) : string :=
  match f with
  | FieldID => "id"
  | FieldName => "name"
  | FieldDescription => "description"
  | FieldProjectID => "project_id"
  | FieldIPPoolID => "ip_pool_id"
  | FieldIP => "ip"
  | FieldTimeCreated => "time_created"
  | FieldTimeModified => "time_modified"
  | FieldTimeouts => "timeouts"
  end.

(** The zero value of the struct, what [var state floatingIpResourceModel]
    declares. *)
Definition zeroModel : floatingIpResourceModel :=
  {| ID := types.StringNull; Name := types.StringNull;
     Description := types.StringNull; ProjectID := types.StringNull;
     IPPoolID := types.StringNull; IP := types.StringNull;
     TimeCreated := types.StringNull; TimeModified := types.StringNull;
     Timeouts := {| timeouts.Attributes := ∅ |} |}.

(** Assignments to single fields: [m.ID = v] and the like. *)
Definition setID (v : types.String) (m : floatingIpResourceModel) : floatingIpResourceModel :=
  let 'Build_floatingIpResourceModel _ name description projectID ipPoolID ip timeCreated timeModified tmo := m in
  {| ID := v; Name := name; Description := description; ProjectID := projectID;
     IPPoolID := ipPoolID; IP := ip; TimeCreated := timeCreated;
     TimeModified := timeModified; Timeouts := tmo |}.

Definition setName (v : types.String) (m : floatingIpResourceModel) : floatingIpResourceModel :=
  let 'Build_floatingIpResourceModel id _ description projectID ipPoolID ip timeCreated timeModified tmo := m in
  {| ID := id; Name := v; Description := description; ProjectID := projectID;
     IPPoolID := ipPoolID; IP := ip; TimeCreated := timeCreated;
     TimeModified := timeModified; Timeouts := tmo |}.

Definition setDescription (v : types.String) (m : floatingIpResourceModel) : floatingIpResourceModel :=
  let 'Build_floatingIpResourceModel id name _ projectID ipPoolID ip timeCreated timeModified tmo := m in
  {| ID := id; Name := name; Description := v; ProjectID := projectID;
     IPPoolID := ipPoolID; IP := ip; TimeCreated := timeCreated;
     TimeModified := timeModified; Timeouts := tmo |}.

Definition setProjectID (v : types.String) (m : floatingIpResourceModel) : floatingIpResourceModel :=
  let 'Build_floatingIpResourceModel id name description _ ipPoolID ip timeCreated timeModified tmo := m in
  {| ID := id; Name := name; Description := description; ProjectID := v;
     IPPoolID := ipPoolID; IP := ip; TimeCreated := timeCreated;
     TimeModified := timeModified; Timeouts := tmo |}.

Definition setIPPoolID (v : types.String) (m : floatingIpResourceModel) : floatingIpResourceModel :=
  let 'Build_floatingIpResourceModel id name description projectID _ ip timeCreated timeModified tmo := m in
  {| ID := id; Name := name; Description := description; ProjectID := projectID;
     IPPoolID := v; IP := ip; TimeCreated := timeCreated;
     TimeModified := timeModified; Timeouts := tmo |}.

Definition setIP (v : types.String) (m : floatingIpResourceModel) : floatingIpResourceModel :=
  let 'Build_floatingIpResourceModel id name description projectID ipPoolID _ timeCreated timeModified tmo := m in
  {| ID := id; Name := name; Description := description; ProjectID := projectID;
     IPPoolID := ipPoolID; IP := v; TimeCreated := timeCreated;
     TimeModified := timeModified; Timeouts := tmo |}.

Definition setTimeCreated (v : types.String) (m : floatingIpResourceModel) : floatingIpResourceModel :=
  let 'Build_floatingIpResourceModel id name description projectID ipPoolID ip _ timeModified tmo := m in
  {| ID := id; Name := name; Description := description; ProjectID := projectID;
     IPPoolID := ipPoolID; IP := ip; TimeCreated := v;
     TimeModified := timeModified; Timeouts := tmo |}.

Definition setTimeModified (v : types.String) (m : floatingIpResourceModel) : floatingIpResourceModel :=
  let 'Build_floatingIpResourceModel id name description projectID ipPoolID ip timeCreated _ tmo := m in
  {| ID := id; Name := name; Description := description; ProjectID := projectID;
     IPPoolID := ipPoolID; IP := ip; TimeCreated := timeCreated;
     TimeModified := v; Timeouts := tmo |}.

(** ** terraform-plugin-framework/resource/schema *)

Module stringplanmodifier.

Inductive String : Type :=
  | RequiresReplace
  | UseStateForUnknown
  | RequiresReplaceIfConfigured.

End stringplanmodifier.

(** ** terraform-plugin-framework/resource/schema/planmodifier *)

Module planmodifier.






End planmodifier.

Module schema.

Record StringAttribute : Type := {
  Required : bool;
  Optional : bool;
  Computed : bool;
  AttrDescription : string;
  PlanModifiers : list stringplanmodifier.String;
}.

Inductive Attribute : Type :=
  | String (a : StringAttribute)
  | Timeouts (opts : timeouts.Opts).

(** [schema.Schema], a map from attribute names to attributes. *)
Record Schema : Type := { Attributes : gmap string Attribute }.

End schema.

(** [Schema] defines the schema for the resource. *)
Definition Schema : schema.Schema :=
  {| schema.Attributes := list_to_map [
       ("name", schema.String {|
          schema.Required := true; schema.Optional := false; schema.Computed := false;
          schema.AttrDescription := "Name of the floating IP.";
          schema.PlanModifiers := [stringplanmodifier.RequiresReplace] |});
       ("description", schema.String {|
          schema.Required := true; schema.Optional := false; schema.Computed := false;
          schema.AttrDescription := "Description for the floating IP.";
          schema.PlanModifiers := [stringplanmodifier.RequiresReplace] |});
       ("project_id", schema.String {|
          schema.Required := true; schema.Optional := false; schema.Computed := false;
          schema.AttrDescription := "ID of the project that will contain the floating IP.";
          schema.PlanModifiers := [stringplanmodifier.RequiresReplace] |});
       ("ip", schema.String {|
          schema.Required := false; schema.Optional := true; schema.Computed := false;
          schema.AttrDescription := "IP Address of the floating IP.";
          schema.PlanModifiers :=
            [stringplanmodifier.UseStateForUnknown;
             stringplanmodifier.RequiresReplaceIfConfigured] |});
       ("ip_pool_id", schema.String {|
          schema.Required := false; schema.Optional := true; schema.Computed := false;
          schema.AttrDescription := "ID of the IP pool that will contain the floating IP.";
          schema.PlanModifiers :=
            [stringplanmodifier.UseStateForUnknown;
             stringplanmodifier.RequiresReplaceIfConfigured] |});
       ("timeouts", schema.Timeouts {|
          timeouts.OptCreate := true; timeouts.OptRead := true;
          timeouts.OptUpdate := true; timeouts.OptDelete := true |});
       ("id", schema.String {|
          schema.Required := false; schema.Optional := false; schema.Computed := true;
          schema.AttrDescription :=
            "Unique, immutable, system-controlled identifier of the floating IP.";
          schema.PlanModifiers := [] |});
       ("time_created", schema.String {|
          schema.Required := false; schema.Optional := false; schema.Computed := true;
          schema.AttrDescription := "Timestamp of when this image was created.";
          schema.PlanModifiers := [] |});
       ("time_modified", schema.String {|
          schema.Required := false; schema.Optional := false; schema.Computed := true;
          schema.AttrDescription := "Timestamp of when this image was last modified.";
          schema.PlanModifiers := [] |})
     ] |}.

(** ** terraform-plugin-framework/tfsdk *)

Module tfsdk.

(** The raw value of a plan or a state under the schema above: null (no
    resource), or an object that carries one value per attribute. *)
Definition Raw : Type := option floatingIpResourceModel.

Definition Plan : Type := Raw.
Definition State : Type := Raw.

(** What the framework reports when it is asked to read a null value into a
    struct that cannot hold one (the text of the detail is shortened). *)
Definition nullConversionError : diag.Diagnostic :=
  diag.NewErrorDiagnostic "Value Conversion Error"
    "Received null value, however the target type cannot handle null values.".

(** [Get] reads the raw value into the target struct.  A null value cannot
    be read into a struct: the target keeps its zero value. *)
Definition Get (raw : Raw) : diag.Diagnostics * floatingIpResourceModel :=
  match raw with
  | Some m => ([], m)
  | None => ([nullConversionError], zeroModel)
  end.

(** [Set] replaces the raw value by the object built from the struct. *)
Definition Set_ (s : State) (m : floatingIpResourceModel) : State * diag.Diagnostics :=
  (Some m, []).

(** [RemoveResource] makes the state null. *)
Definition RemoveResource (s : State) : State := None.

(** [SetAttribute] at the path of the [id] attribute, with a Go string as
    value: the attribute becomes that string; on a null state the object is
    created first, with every other attribute null. *)
Definition SetAttributeID (s : State) (v : string) : State * diag.Diagnostics :=
  (Some (setID (types.StringValue v) (default zeroModel s)), []).

End tfsdk.

(** ** terraform-plugin-framework/resource: requests and responses *)

Module resource.

Record CreateRequest : Type := { Plan : tfsdk.Plan }.
Record ReadRequest : Type := { ReadState : tfsdk.State }.
Record UpdateRequest : Type := { UpdatePlan : tfsdk.Plan; UpdateState : tfsdk.State }.
Record DeleteRequest : Type := { DeleteState : tfsdk.State }.
Record ImportStateRequest : Type := { ImportID : string }.

(** The four response structs carry the same two fields the resource
    touches; one record stands for all of them. *)
Record Response : Type := {
  State : tfsdk.State;
  Diagnostics : diag.Diagnostics;
}.

Definition CreateResponse : Type := Response.
Definition ReadResponse : Type := Response.
Definition UpdateResponse : Type := Response.
Definition DeleteResponse : Type := Response.
Definition ImportStateResponse : Type := Response.

(** The response the framework hands to an operation: no diagnostics yet,
    and the state it starts from. *)
Definition newResponse (st : tfsdk.State) : Response :=
  {| State := st; Diagnostics := [] |}.

(** [resp.Diagnostics.Append(diags...)] *)
Definition AppendDiagnostics (resp : Response) (diags : diag.Diagnostics) : Response :=
  {| State := State resp; Diagnostics := diag.Append (Diagnostics resp) diags |}.

(** [resp.Diagnostics.AddError(summary, detail)] *)
Definition AddError (resp : Response) (summary detail : string) : Response :=
  {| State := State resp; Diagnostics := diag.AddError (Diagnostics resp) summary detail |}.

(** [ImportStatePassthroughID] at the path of the [id] attribute, which is
    not the empty path: the identifier of the request is written to the
    attribute. *)
Definition ImportStatePassthroughID (req : ImportStateRequest) (resp : ImportStateResponse)
  : ImportStateResponse :=
  let '(state, diags) := tfsdk.SetAttributeID (State resp) (ImportID req) in
  AppendDiagnostics {| State := state; Diagnostics := Diagnostics resp |} diags.

End resource.

(** ** internal/provider: the floating IP resource *)

(** Two helpers of the provider package that the resource uses: [is404]
    tells whether an error of the client is the platform's not-found answer,
    [defaultTimeout] is the duration an operation gets when the configuration
    sets none. *)
Class ProviderHelpers `{GoRuntime} : Type := {
  is404 : error → bool;
  defaultTimeout : Duration;
}.

Section floatingIpResource.

Context `{rt : GoRuntime} `{helpers : !ProviderHelpers} `{client : !oxide.Client.Client}.

(** What an operation does besides computing its response: the calls to
    the client, each with the context and parameters it was given and the
    answer it got, and the trace lines written through [tflog]. *)
Inductive Event : Type :=
  | CallFloatingIpCreate (ctx : Context) (params : oxide.FloatingIpCreateParams)
      (res : oxide.FloatingIp + error)
  | CallFloatingIpView (ctx : Context) (params : oxide.FloatingIpViewParams)
      (res : oxide.FloatingIp + error)
  | CallFloatingIpDelete (ctx : Context) (params : oxide.FloatingIpDeleteParams)
      (res : option error)
  | TflogTrace (msg : string).

Definition isRemoteCall (e : Event) : bool :=
  match e with
  | TflogTrace _ => false
  | _ => true
  end.

(** The calls to the client among the events of a run. *)
Definition remoteCalls (evs : list Event) : list Event := List.filter isRemoteCall evs.

(** An operation runs against the platform behind the client: it returns
    its result, the events of the run in order, and the platform after it. *)
Definition Op (A : Type) : Type := oxide.Client.World → A * list Event * oxide.Client.World.

#[local] Instance Op_ret : MRet Op := λ A a w, (a, [], w).

#[local] Instance Op_bind : MBind Op := λ A B f m w,
  let '(a, evs1, w1) := m w in
  let '(b, evs2, w2) := f a w1 in
  (b, evs1 ++ evs2, w2).

(** [r.client.FloatingIpCreate(ctx, params)] *)
Definition clientFloatingIpCreate (ctx : Context) (params : oxide.FloatingIpCreateParams)
  : Op (oxide.FloatingIp + error) :=
  λ w, let '(res, w') := oxide.Client.FloatingIpCreate ctx params w in
       (res, [CallFloatingIpCreate ctx params res], w').

(** [r.client.FloatingIpView(ctx, params)] *)
Definition clientFloatingIpView (ctx : Context) (params : oxide.FloatingIpViewParams)
  : Op (oxide.FloatingIp + error) :=
  λ w, let '(res, w') := oxide.Client.FloatingIpView ctx params w in
       (res, [CallFloatingIpView ctx params res], w').

(** [r.client.FloatingIpDelete(ctx, params)] *)
Definition clientFloatingIpDelete (ctx : Context) (params : oxide.FloatingIpDeleteParams)
  : Op (option error) :=
  λ w, let '(res, w') := oxide.Client.FloatingIpDelete ctx params w in
       (res, [CallFloatingIpDelete ctx params res], w').

(** [tflog.Trace(ctx, msg, fields)]; the fields are the constant
    [{"success": true}] at every call. *)
Definition tflogTrace (msg : string) : Op unit := λ w, (tt, [TflogTrace msg], w).

(** [Metadata] returns the resource type name. *)
Definition Metadata : string := "oxide_floating_ip".

(** [Create] creates the resource and sets the initial Terraform state. *)
Definition Create (ctx : Context) (req : resource.CreateRequest)
    (resp : resource.CreateResponse) : Op resource.CreateResponse :=
  let '(diags, plan) := tfsdk.Get (resource.Plan req) in
  let resp := resource.AppendDiagnostics resp diags in
  if diag.HasError (resource.Diagnostics resp) then mret resp else
  let '(createTimeout, diags) := timeouts.Create (Timeouts plan) defaultTimeout in
  let resp := resource.AppendDiagnostics resp diags in
  if diag.HasError (resource.Diagnostics resp) then mret resp else
  let ctx := WithTimeout ctx createTimeout in
  let params :=
    {| oxide.Project := types.ValueString (ProjectID plan);
       oxide.Body :=
         {| oxide.CreateDescription := types.ValueString (Description plan);
            oxide.CreateIp := types.ValueString (IP plan);
            oxide.CreateName := types.ValueString (Name plan);
            oxide.CreatePool := types.ValueString (IPPoolID plan) |} |} in
  res ← clientFloatingIpCreate ctx params;
  match res with
  | inr err =>
      mret (resource.AddError resp "Error creating floatingIp"
              ("API error: " +:+ Error err))
  | inl floatingIp =>
      tflogTrace ("created floatingIp with ID: " +:+ oxide.Id floatingIp);;
      (* Map response body to schema and populate Computed attribute values *)
      let plan := setID (types.StringValue (oxide.Id floatingIp)) plan in
      let plan :=
        setTimeCreated (types.StringValue (TimeString (oxide.TimeCreated floatingIp))) plan in
      let plan :=
        setTimeModified (types.StringValue (TimeString (oxide.TimeModified floatingIp))) plan in
      (* Save plan into Terraform state *)
      let '(state, diags) := tfsdk.Set_ (resource.State resp) plan in
      mret (resource.AppendDiagnostics
              {| resource.State := state; resource.Diagnostics := resource.Diagnostics resp |}
              diags)
  end.

(** [Read] refreshes the Terraform state with the latest data. *)
Definition Read (ctx : Context) (req : resource.ReadRequest)
    (resp : resource.ReadResponse) : Op resource.ReadResponse :=
  (* Read Terraform prior state data into the model *)
  let '(diags, state) := tfsdk.Get (resource.ReadState req) in
  let resp := resource.AppendDiagnostics resp diags in
  if diag.HasError (resource.Diagnostics resp) then mret resp else
  let '(readTimeout, diags) := timeouts.Read (Timeouts state) defaultTimeout in
  let resp := resource.AppendDiagnostics resp diags in
  if diag.HasError (resource.Diagnostics resp) then mret resp else
  let ctx := WithTimeout ctx readTimeout in
  let params := {| oxide.ViewFloatingIp := types.ValueString (ID state) |} in
  res ← clientFloatingIpView ctx params;
  match res with
  | inr err =>
      if is404 err then
        (* Remove resource from state during a refresh *)
        mret {| resource.State := tfsdk.RemoveResource (resource.State resp);
                resource.Diagnostics := resource.Diagnostics resp |}
      else
        mret (resource.AddError resp "Unable to read floatingIp:"
                ("API error: " +:+ Error err))
  | inl floatingIp =>
      tflogTrace ("read floatingIp with ID: " +:+ oxide.Id floatingIp);;
      let state := setDescription (types.StringValue (oxide.Description floatingIp)) state in
      let state := setID (types.StringValue (oxide.Id floatingIp)) state in
      let state := setName (types.StringValue (oxide.FloatingIpName floatingIp)) state in
      let state := setIP (types.StringValue (oxide.Ip floatingIp)) state in
      let state := setIPPoolID (types.StringValue (oxide.IpPoolId floatingIp)) state in
      let state := setName (types.StringValue (oxide.FloatingIpName floatingIp)) state in
      let state := setProjectID (types.StringValue (oxide.ProjectId floatingIp)) state in
      let state :=
        setTimeCreated (types.StringValue (TimeString (oxide.TimeCreated floatingIp))) state in
      let state :=
        setTimeModified (types.StringValue (TimeString (oxide.TimeModified floatingIp))) state in
      (* Save updated data into Terraform state *)
      let '(st, diags) := tfsdk.Set_ (resource.State resp) state in
      mret (resource.AppendDiagnostics
              {| resource.State := st; resource.Diagnostics := resource.Diagnostics resp |}
              diags)
  end.

(** [Update] updates the resource and sets the updated Terraform state on
    success. *)
Definition Update (ctx : Context) (req : resource.UpdateRequest)
    (resp : resource.UpdateResponse) : Op resource.UpdateResponse :=
  mret (resource.AddError resp "Error updating floatingIp"
          "the oxide API currently does not support updating floatingIps").

(** [Delete] deletes the resource and removes the Terraform state on
    success. *)
Definition Delete (ctx : Context) (req : resource.DeleteRequest)
    (resp : resource.DeleteResponse) : Op resource.DeleteResponse :=
  (* Read Terraform prior state data into the model *)
  let '(diags, state) := tfsdk.Get (resource.DeleteState req) in
  let resp := resource.AppendDiagnostics resp diags in
  if diag.HasError (resource.Diagnostics resp) then mret resp else
  let '(deleteTimeout, diags) := timeouts.Delete (Timeouts state) defaultTimeout in
  let resp := resource.AppendDiagnostics resp diags in
  if diag.HasError (resource.Diagnostics resp) then mret resp else
  let ctx := WithTimeout ctx deleteTimeout in
  let params := {| oxide.DeleteFloatingIp := types.ValueString (ID state) |} in
  res ← clientFloatingIpDelete ctx params;
  match res with
  | Some err =>
      if negb (is404 err) then
        mret (resource.AddError resp "Unable to delete floatingIp:"
                ("API error: " +:+ Error err))
      else
        tflogTrace ("deleted floatingIp with ID: " +:+ types.ValueString (ID state));;
        mret resp
  | None =>
      tflogTrace ("deleted floatingIp with ID: " +:+ types.ValueString (ID state));;
      mret resp
  end.

(** [ImportState] passes the identifier of the request through to the [id]
    attribute. *)
Definition ImportState (ctx : Context) (req : resource.ImportStateRequest)
    (resp : resource.ImportStateResponse) : resource.ImportStateResponse :=
  resource.ImportStatePassthroughID req resp.

End floatingIpResource.

Arguments Event {rt}.
Arguments Op {rt client} A.

(** ** What the properties below are stated with *)

Section contracts.

Context `{rt : GoRuntime} `{helpers : !ProviderHelpers} `{client : !oxide.Client.Client}.

(** The context a call to the client was made under. *)
Definition eventContext (e : Event) : option Context :=
  match e with
  | CallFloatingIpCreate ctx _ _ => Some ctx
  | CallFloatingIpView ctx _ _ => Some ctx
  | CallFloatingIpDelete ctx _ _ => Some ctx
  | TflogTrace _ => None
  end.

(** An operation, as a function of the ambient context and of the model its
    request carries. *)
Definition runCreate (ctx : Context) (m : floatingIpResourceModel) :=
  Create ctx {| resource.Plan := Some m |}.
Definition runRead (ctx : Context) (m : floatingIpResourceModel) :=
  Read ctx {| resource.ReadState := Some m |}.
Definition runUpdate (ctx : Context) (m : floatingIpResourceModel) :=
  Update ctx {| resource.UpdatePlan := Some m; resource.UpdateState := Some m |}.
Definition runDelete (ctx : Context) (m : floatingIpResourceModel) :=
  Delete ctx {| resource.DeleteState := Some m |}.

(** An operation resolves its own timeout, the one configured under [name],
    before any call to the client: what the resolver reports is among the
    diagnostics of the operation, no call is made when the resolver reports
    an error, and every call that is made runs under the ambient context
    bounded by the resolved duration. *)
Definition resolvesOwnTimeout (name : string)
    (run : Context → floatingIpResourceModel → resource.Response → Op resource.Response)
    : Prop :=
  ∀ (ctx : Context) (m : floatingIpResourceModel) (st0 : tfsdk.State)
    (w w' : oxide.Client.World) (d : Duration) (diags : diag.Diagnostics)
    (resp : resource.Response) (evs : list Event),
    timeouts.getTimeout (Timeouts m) name defaultTimeout = (d, diags) →
    run ctx m (resource.newResponse st0) w = (resp, evs, w') →
    diags ⊆ resource.Diagnostics resp ∧
    (diag.HasError diags = true → remoteCalls evs = []) ∧
    (∀ e, e ∈ remoteCalls evs → eventContext e = Some (WithTimeout ctx d)).

(** After a [Read] in which the View call returned the object [O], the
    field [get] of the state holds the field [field] of [O]. *)
Definition ReadReflects (get : floatingIpResourceModel → types.String)
    (field : oxide.FloatingIp → string) : Prop :=
  ∀ (ctx : Context) (st st0 : tfsdk.State) (w w' : oxide.Client.World)
    (resp : resource.ReadResponse) (evs : list Event)
    (c : Context) (p : oxide.FloatingIpViewParams) (O : oxide.FloatingIp),
    Read ctx {| resource.ReadState := st |} (resource.newResponse st0) w = (resp, evs, w') →
    CallFloatingIpView c p (inl O) ∈ evs →
    ∃ m', resource.State resp = Some m' ∧ get m' = types.StringValue (field O).

(** After a [Create] in which the Create call returned the object [O], the
    field [get] of the state holds the field [field] of [O]. *)
Definition CreateMerges (get : floatingIpResourceModel → types.String)
    (field : oxide.FloatingIp → string) : Prop :=
  ∀ (ctx : Context) (pl : tfsdk.Plan) (st0 : tfsdk.State) (w w' : oxide.Client.World)
    (resp : resource.CreateResponse) (evs : list Event)
    (c : Context) (p : oxide.FloatingIpCreateParams) (O : oxide.FloatingIp),
    Create ctx {| resource.Plan := pl |} (resource.newResponse st0) w = (resp, evs, w') →
    CallFloatingIpCreate c p (inl O) ∈ evs →
    ∃ m', resource.State resp = Some m' ∧ get m' = types.StringValue (field O).

(** After such a [Create], the field [get] of the state is the one of the
    plan. *)
Definition CreateKeeps {A : Type} (get : floatingIpResourceModel → A) : Prop :=
  ∀ (ctx : Context) (pl : tfsdk.Plan) (st0 : tfsdk.State) (w w' : oxide.Client.World)
    (resp : resource.CreateResponse) (evs : list Event)
    (c : Context) (p : oxide.FloatingIpCreateParams) (O : oxide.FloatingIp),
    Create ctx {| resource.Plan := pl |} (resource.newResponse st0) w = (resp, evs, w') →
    CallFloatingIpCreate c p (inl O) ∈ evs →
    ∃ m m', pl = Some m ∧ resource.State resp = Some m' ∧ get m' = get m.

(** The answer to a Delete call leaves the floating IP absent: the call
    succeeded, or the platform did not find it. *)
Definition deleteGone (res : option error) : bool :=
  match res with
  | None => true
  | Some err => is404 err
  end.

(** What the second of two deletes in sequence relies on: once a Delete
    call has left a floating IP absent, the next Delete call for it finds it
    absent too, whatever context it runs under. *)
Definition deletedStaysDeleted : Prop :=
  ∀ (c c' : Context) (p : oxide.FloatingIpDeleteParams) (w : oxide.Client.World),
    deleteGone (oxide.Client.FloatingIpDelete c p w).1 = true →
    deleteGone (oxide.Client.FloatingIpDelete c' p (oxide.Client.FloatingIpDelete c p w).2).1
      = true.

(** The projection of a field of the struct that holds a string. *)
Definition stringField (f : modelField) : option (floatingIpResourceModel → types.String) :=
  match f with
  | FieldID => Some ID
  | FieldName => Some Name
  | FieldDescription => Some Description
  | FieldProjectID => Some ProjectID
  | FieldIPPoolID => Some IPPoolID
  | FieldIP => Some IP
  | FieldTimeCreated => Some TimeCreated
  | FieldTimeModified => Some TimeModified
  | FieldTimeouts => None
  end.

(** The diagnostics of [resp'] are those of [resp], followed by new ones. *)
Definition reportsOnTopOf (resp resp' : resource.Response) : Prop :=
  resource.Diagnostics resp `prefix_of` resource.Diagnostics resp'.

(** Two string values that reach the platform as the same string. *)
Definition sameOnTheWire (v1 v2 : types.String) : Prop :=
  types.ValueString v1 = types.ValueString v2.

End contracts.

(** The entries of the persisted state layout as the specification lists
    them. *)
Inductive layoutEntry : Type :=
  | LayoutIdentity | LayoutName | LayoutDescription | LayoutProjectId | LayoutIp
  | LayoutPoolId | LayoutBoundInstanceId | LayoutTimeCreated | LayoutTimeModified
  | LayoutTimeouts.

#[global] Instance layoutEntry_eq_dec : EqDecision layoutEntry.
Proof. solve_decision. Defined.

Definition layoutEntries : list layoutEntry :=
  [LayoutIdentity; LayoutName; LayoutDescription; LayoutProjectId; LayoutIp;
   LayoutPoolId; LayoutBoundInstanceId; LayoutTimeCreated; LayoutTimeModified;
   LayoutTimeouts].

#[global] Instance layoutEntry_finite : Finite layoutEntry.
Proof.
  refine {| enum := layoutEntries |}.
  - by apply (bool_decide_unpack _).
  - intros []; by apply (bool_decide_unpack _).
Defined.

#[global] Instance modelField_finite : Finite modelField.
Proof.
  refine {| enum := modelFields |}.
  - by apply (bool_decide_unpack _).
  - intros []; by apply (bool_decide_unpack _).
Defined.

(** The struct mirrors the listed layout field for field: every entry has a
    field of its own, and every field is one of the entries. *)
Definition mirrorsLayout : Prop :=
  ∃ f : layoutEntry → modelField, Inj (=) (=) f ∧ Surj (=) f.

(** ** An in-memory platform

    A concrete runtime and a concrete client, to run the operations on: the
    platform is the list of the floating IPs that exist, and errors are the
    few kinds the platform answers with. *)

Module memory.

Inductive memError : Type :=
  | ObjectNotFound (ref : string)
  | ObjectAlreadyExists (name : string)
  | InternalError
  | InvalidDuration (s : string).

Definition memErrorString (e : memError) : string :=
  match e with
  | ObjectNotFound ref => "NOT FOUND: floating-ip " +:+ ref
  | ObjectAlreadyExists name => "already exists: floating-ip " +:+ name
  | InternalError => "Internal Server Error"
  | InvalidDuration s => "time: invalid duration " +:+ timeouts.quote s
  end.

Definition isDigit (c : Ascii.ascii) : bool :=
  let n := Ascii.nat_of_ascii c in (48 <=? n)%nat && (n <=? 57)%nat.

(** The decimal number a string starts with, and what follows it. *)
Fixpoint leadingInt (s : string) (acc : Z) (seen : bool) : option (Z * string) :=
  match s with
  | String c rest =>
      if isDigit c
      then leadingInt rest (10 * acc + (Z.of_nat (Ascii.nat_of_ascii c) - 48)) true
      else if seen then Some (acc, s) else None
  | EmptyString => if seen then Some (acc, EmptyString) else None
  end.

Definition unitNanoseconds (u : string) : option Z :=
  if decide (u = "ns") then Some 1
  else if decide (u = "us") then Some 1000
  else if decide (u = "ms") then Some 1000000
  else if decide (u = "s") then Some 1000000000
  else if decide (u = "m") then Some 60000000000
  else if decide (u = "h") then Some 3600000000000
  else None.

(** A parser for the durations the examples use: a whole number and one
    unit, as in [30s] or [10m]. *)
Definition parseDuration (s : string) : Duration + memError :=
  match leadingInt s 0 false with
  | Some (n, u) =>
      match unitNanoseconds u with
      | Some k => inl (n * k)
      | None => inr (InvalidDuration s)
      end
  | None => inr (InvalidDuration s)
  end.

#[export] Instance runtime : GoRuntime := {|
  error := memError;
  Error := memErrorString;
  Time := string;
  TimeString := id;
  ParseDuration := parseDuration;
|}.

Definition memIs404 (e : memError) : bool :=
  match e with
  | ObjectNotFound _ => true
  | _ => false
  end.

#[export] Instance helpers : ProviderHelpers := {|
  is404 := memIs404;
  defaultTimeout := 600000000000;
|}.

Definition hasId (ref : string) (o : oxide.FloatingIp) : bool :=
  bool_decide (oxide.Id o = ref).

Definition hasName (name : string) (o : oxide.FloatingIp) : bool :=
  bool_decide (oxide.FloatingIpName o = name).

Definition orDefault (s default : string) : string :=
  if decide (s = EmptyString) then default else s.

(** The platform assigns the identity, resolves the project and the pool
    to their identities and picks an address when none is asked for. *)
Definition memCreate (ctx : Context) (params : oxide.FloatingIpCreateParams)
    (w : list oxide.FloatingIp) : (oxide.FloatingIp + memError) * list oxide.FloatingIp :=
  let body := oxide.Body params in
  if existsb (hasName (oxide.CreateName body)) w
  then (inr (ObjectAlreadyExists (oxide.CreateName body)), w)
  else
    let o :=
      {| oxide.Description := oxide.CreateDescription body;
         oxide.Id := "fip-" +:+ oxide.CreateName body;
         oxide.InstanceId := EmptyString;
         oxide.Ip := orDefault (oxide.CreateIp body) "203.0.113.7";
         oxide.IpPoolId := "id-of-" +:+ orDefault (oxide.CreatePool body) "default";
         oxide.FloatingIpName := oxide.CreateName body;
         oxide.ProjectId := "id-of-" +:+ oxide.Project params;
         oxide.TimeCreated := "2024-01-01 00:00:00 +0000 UTC";
         oxide.TimeModified := "2024-01-01 00:00:00 +0000 UTC" |} in
    (inl o, o :: w).

Definition memView (ctx : Context) (params : oxide.FloatingIpViewParams)
    (w : list oxide.FloatingIp) : (oxide.FloatingIp + memError) * list oxide.FloatingIp :=
  match List.find (hasId (oxide.ViewFloatingIp params)) w with
  | Some o => (inl o, w)
  | None => (inr (ObjectNotFound (oxide.ViewFloatingIp params)), w)
  end.

Definition memDelete (ctx : Context) (params : oxide.FloatingIpDeleteParams)
    (w : list oxide.FloatingIp) : option memError * list oxide.FloatingIp :=
  if existsb (hasId (oxide.DeleteFloatingIp params)) w
  then (None, filter (λ o, oxide.Id o ≠ oxide.DeleteFloatingIp params) w)
  else (Some (ObjectNotFound (oxide.DeleteFloatingIp params)), w).

#[export] Instance client : oxide.Client.Client := {|
  oxide.Client.World := list oxide.FloatingIp;
  oxide.Client.FloatingIpCreate := memCreate;
  oxide.Client.FloatingIpView := memView;
  oxide.Client.FloatingIpDelete := memDelete;
|}.

(** A platform that is out of order: every call fails. *)
Definition downClient : oxide.Client.Client := {|
  oxide.Client.World := unit;
  oxide.Client.FloatingIpCreate := λ _ _ w, (inr InternalError, w);
  oxide.Client.FloatingIpView := λ _ _ w, (inr InternalError, w);
  oxide.Client.FloatingIpDelete := λ _ _ w, (Some InternalError, w);
|}.

(** The declared configuration of the running example. *)
Definition lbVip : floatingIpResourceModel :=
  {| ID := types.StringUnknown;
     Name := types.StringValue "lb-vip";
     Description := types.StringValue "load balancer VIP";
     ProjectID := types.StringValue "proj-1";
     IPPoolID := types.StringNull;
     IP := types.StringNull;
     TimeCreated := types.StringUnknown;
     TimeModified := types.StringUnknown;
     Timeouts := {| timeouts.Attributes := {[ "create" := types.StringValue "30s" ]} |} |}.

(** The floating IP the platform holds after the example is created, and
    the same one once attached to an instance. *)
Definition lbVipObject : oxide.FloatingIp :=
  {| oxide.Description := "load balancer VIP";
     oxide.Id := "fip-lb-vip";
     oxide.InstanceId := EmptyString;
     oxide.Ip := "203.0.113.7";
     oxide.IpPoolId := "id-of-default";
     oxide.FloatingIpName := "lb-vip";
     oxide.ProjectId := "id-of-proj-1";
     oxide.TimeCreated := "2024-01-01 00:00:00 +0000 UTC";
     oxide.TimeModified := "2024-01-01 00:00:00 +0000 UTC" |}.

Definition lbVipAttached : oxide.FloatingIp :=
  {| oxide.Description := "load balancer VIP";
     oxide.Id := "fip-lb-vip";
     oxide.InstanceId := "instance-1";
     oxide.Ip := "203.0.113.7";
     oxide.IpPoolId := "id-of-default";
     oxide.FloatingIpName := "lb-vip";
     oxide.ProjectId := "id-of-proj-1";
     oxide.TimeCreated := "2024-01-01 00:00:00 +0000 UTC";
     oxide.TimeModified := "2024-01-01 00:00:00 +0000 UTC" |}.

(** The state recorded for the example. *)
Definition lbVipState : floatingIpResourceModel :=
  {| ID := types.StringValue "fip-lb-vip";
     Name := types.StringValue "lb-vip";
     Description := types.StringValue "load balancer VIP";
     ProjectID := types.StringValue "proj-1";
     IPPoolID := types.StringNull;
     IP := types.StringNull;
     TimeCreated := types.StringValue "2024-01-01 00:00:00 +0000 UTC";
     TimeModified := types.StringValue "2024-01-01 00:00:00 +0000 UTC";
     Timeouts := {| timeouts.Attributes := {[ "create" := types.StringValue "30s" ]} |} |}.

(** The same state with a timeout for update that is no duration. *)
Definition lbVipBadUpdateTimeout : floatingIpResourceModel :=
  {| ID := types.StringValue "fip-lb-vip";
     Name := types.StringValue "lb-vip";
     Description := types.StringValue "load balancer VIP";
     ProjectID := types.StringValue "proj-1";
     IPPoolID := types.StringNull;
     IP := types.StringNull;
     TimeCreated := types.StringValue "2024-01-01 00:00:00 +0000 UTC";
     TimeModified := types.StringValue "2024-01-01 00:00:00 +0000 UTC";
     Timeouts := {| timeouts.Attributes := {[ "update" := types.StringValue "soon" ]} |} |}.

(** Runs of the operations on the in-memory platform. *)

Definition createLbVip :=
  Create Ambient {| resource.Plan := Some lbVip |} (resource.newResponse None) [].

(** Create when the name is taken. *)
Definition createTaken :=
  Create Ambient {| resource.Plan := Some lbVip |} (resource.newResponse None) [lbVipObject].

Definition readDetached :=
  Read Ambient {| resource.ReadState := Some lbVipState |}
    (resource.newResponse (Some lbVipState)) [lbVipObject].

Definition readAttached :=
  Read Ambient {| resource.ReadState := Some lbVipState |}
    (resource.newResponse (Some lbVipState)) [lbVipAttached].

(** Read when the floating IP is gone. *)
Definition readGone :=
  Read Ambient {| resource.ReadState := Some lbVipState |}
    (resource.newResponse (Some lbVipState)) [].

(** Two deletes in sequence. *)
Definition deleteFirst :=
  Delete Ambient {| resource.DeleteState := Some lbVipState |}
    (resource.newResponse (Some lbVipState)) [lbVipObject].

Definition deleteSecond :=
  Delete Ambient {| resource.DeleteState := Some lbVipState |}
    (resource.newResponse (Some lbVipState)) deleteFirst.2.

(** Read and Delete of a state without identity. *)
Definition readNoIdentity :=
  runRead Ambient zeroModel (resource.newResponse (Some zeroModel)) [lbVipObject].

Definition deleteNoIdentity :=
  runDelete Ambient zeroModel (resource.newResponse (Some zeroModel)) [lbVipObject].

(** The declared configuration written differently: ip and pool are
    empty strings instead of null, the computed fields carry stale values,
    and only the timeouts of other operations differ. *)
Definition lbVipRewritten : floatingIpResourceModel :=
  {| ID := types.StringValue "stale";
     Name := types.StringValue "lb-vip";
     Description := types.StringValue "load balancer VIP";
     ProjectID := types.StringValue "proj-1";
     IPPoolID := types.StringValue EmptyString;
     IP := types.StringUnknown;
     TimeCreated := types.StringNull;
     TimeModified := types.StringNull;
     Timeouts := {| timeouts.Attributes :=
                      {[ "create" := types.StringValue "30s";
                         "read" := types.StringValue "1m" ]} |} |}.

(** A state that knows the floating IP by its identity only. *)
Definition lbVipImported : floatingIpResourceModel :=
  setID (types.StringValue "fip-lb-vip") zeroModel.

(** The state of the example without timeouts. *)
Definition lbVipNoTimeouts : floatingIpResourceModel :=
  {| ID := types.StringValue "fip-lb-vip";
     Name := types.StringValue "lb-vip";
     Description := types.StringValue "load balancer VIP";
     ProjectID := types.StringValue "proj-1";
     IPPoolID := types.StringNull;
     IP := types.StringNull;
     TimeCreated := types.StringValue "2024-01-01 00:00:00 +0000 UTC";
     TimeModified := types.StringValue "2024-01-01 00:00:00 +0000 UTC";
     Timeouts := {| timeouts.Attributes := ∅ |} |}.

(** A state that records the identity of the example and the same
    timeouts, and stale values everywhere else. *)
Definition lbVipStale : floatingIpResourceModel :=
  {| ID := types.StringValue "fip-lb-vip";
     Name := types.StringValue "old-name";
     Description := types.StringNull;
     ProjectID := types.StringValue "other-project";
     IPPoolID := types.StringValue "other-pool";
     IP := types.StringValue "198.51.100.1";
     TimeCreated := types.StringUnknown;
     TimeModified := types.StringUnknown;
     Timeouts := {| timeouts.Attributes := {[ "create" := types.StringValue "30s" ]} |} |}.

(** Read of a request without state. *)
Definition readNull :=
  Read Ambient {| resource.ReadState := None |} (resource.newResponse None) [lbVipObject].

(** Delete of the state Create wrote, on the platform Create left. *)
Definition deleteCreated :=
  Delete Ambient {| resource.DeleteState := resource.State createLbVip.1.1 |}
    (resource.newResponse (resource.State createLbVip.1.1)) createLbVip.2.


(** A response that already carries an error. *)
Definition failedResponse : resource.Response :=
  {| resource.State := Some lbVipState;
     resource.Diagnostics := [diag.NewErrorDiagnostic "Earlier error" "reported before"] |}.

(** Read and Delete on the platform that is out of order. *)
Definition readDown :=
  @Read _ _ downClient Ambient {| resource.ReadState := Some lbVipState |}
    (resource.newResponse (Some lbVipState)) tt.

Definition deleteDown :=
  @Delete _ _ downClient Ambient {| resource.DeleteState := Some lbVipState |}
    (resource.newResponse (Some lbVipState)) tt.

(** Read of the state that Create wrote, on the platform Create left. *)
Definition readCreated :=
  Read Ambient {| resource.ReadState := resource.State createLbVip.1.1 |}
    (resource.newResponse (resource.State createLbVip.1.1)) createLbVip.2.

(** Read again of the state a Read wrote. *)
Definition readAgain :=
  Read Ambient {| resource.ReadState := resource.State readAttached.1.1 |}
    (resource.newResponse (resource.State readAttached.1.1)) readAttached.2.

(** Import by identity, then Read. *)
Definition imported :=
  ImportState Ambient {| resource.ImportID := "fip-lb-vip" |} (resource.newResponse None).

Definition readImported :=
  Read Ambient {| resource.ReadState := resource.State imported |}
    (resource.newResponse (resource.State imported)) [lbVipAttached].

End memory.


(** ** Properties of the framework model *)

Section framework.

Context `{rt : GoRuntime}.

Lemma Append_nil_r (diags : diag.Diagnostics) : diag.Append diags [] = diags.
Proof. reflexivity. Qed.

Lemma Append_nil_singleton (d : diag.Diagnostic) : diag.Append [] [d] = [d].
Proof. reflexivity. Qed.

Lemma HasError_NewErrorDiagnostic (summary detail : string) :
  diag.HasError [diag.NewErrorDiagnostic summary detail] = true.
Proof. reflexivity. Qed.

Lemma HasError_nil : diag.HasError [] = false.
Proof. reflexivity. Qed.

Lemma HasError_nullConversionError : diag.HasError [tfsdk.nullConversionError] = true.
Proof. reflexivity. Qed.

Lemma AppendDiagnostics_nil (resp : resource.Response) :
  resource.AppendDiagnostics resp [] = resp.
Proof. by destruct resp. Qed.

Lemma AppendDiagnostics_new (st : tfsdk.State) (d : diag.Diagnostic) :
  resource.AppendDiagnostics (resource.newResponse st) [d]
    = {| resource.State := st; resource.Diagnostics := [d] |}.
Proof. reflexivity. Qed.

Lemma AddError_new (st : tfsdk.State) (summary detail : string) :
  resource.AddError (resource.newResponse st) summary detail
    = {| resource.State := st;
         resource.Diagnostics := [diag.NewErrorDiagnostic summary detail] |}.
Proof. reflexivity. Qed.

Lemma Diagnostics_new (st : tfsdk.State) :
  resource.Diagnostics (resource.newResponse st) = [].
Proof. reflexivity. Qed.

Lemma State_new (st : tfsdk.State) : resource.State (resource.newResponse st) = st.
Proof. reflexivity. Qed.

(** The resolver either returns a duration and no diagnostic, or the default
    and one error diagnostic. *)
Lemma getTimeout_cases (t : timeouts.Value) (name : string) (default : Duration) :
  (∃ d, timeouts.getTimeout t name default = (d, [])) ∨
  (∃ detail, timeouts.getTimeout t name default =
               (default, [diag.NewErrorDiagnostic "Timeout Cannot Be Parsed" detail])).
Proof.
  unfold timeouts.getTimeout.
  destruct (timeouts.Attributes t !! name) as [value|]; [|left; eauto].
  destruct (types.IsNull value || types.IsUnknown value); [left; eauto|].
  destruct (ParseDuration (types.ValueString value)) as [d|err]; [left|right]; eauto.
Qed.

(** The resolver looks at the attribute of its own operation only. *)
Lemma getTimeout_own_attribute (t t' : timeouts.Value) (name : string) (default : Duration) :
  timeouts.Attributes t !! name = timeouts.Attributes t' !! name →
  timeouts.getTimeout t name default = timeouts.getTimeout t' name default.
Proof. unfold timeouts.getTimeout. by intros ->. Qed.

(** With nothing configured, the resolver returns the default. *)
Lemma getTimeout_default (name : string) (default : Duration) :
  timeouts.getTimeout {| timeouts.Attributes := ∅ |} name default = (default, []).
Proof. unfold timeouts.getTimeout. cbn. by rewrite lookup_empty. Qed.

End framework.

Create Rewrite HintDb diag.

#[global] Hint Rewrite @HasError_nil @HasError_NewErrorDiagnostic
  @HasError_nullConversionError @AppendDiagnostics_nil @AppendDiagnostics_new @AddError_new
  @Diagnostics_new @State_new : diag.

(** ** Properties of the lifecycle operations *)

Section properties.

Context `{rt : GoRuntime} `{helpers : !ProviderHelpers} `{client : !oxide.Client.Client}.

#[local] Arguments timeouts.getTimeout : simpl never.
#[local] Arguments diag.Append : simpl never.
#[local] Arguments diag.HasError : simpl never.
#[local] Arguments resource.AppendDiagnostics : simpl never.
#[local] Arguments resource.AddError : simpl never.
#[local] Arguments resource.newResponse : simpl never.

(** Computes as far as the diagnostics collected so far decide. *)
Ltac step := repeat (progress (cbn in *; autorewrite with diag in * )).

(** Unfolds an operation down to the calls of the client. *)
Ltac unfold_op :=
  unfold runCreate, runRead, runUpdate, runDelete, Create, Read, Update, Delete,
    timeouts.Create, timeouts.Read, timeouts.Update, timeouts.Delete,
    clientFloatingIpCreate, clientFloatingIpView, clientFloatingIpDelete, tflogTrace,
    mbind, mret, Op_bind, Op_ret in *;
  step.

(** Splits on the two outcomes of the resolver, given the outcome [Hto]. *)
Ltac resolver_cases t name Hto :=
  let d := fresh "d" in
  let detail := fresh "detail" in
  let Hcase := fresh "Hcase" in
  destruct (getTimeout_cases t name defaultTimeout) as [[d Hcase]|[detail Hcase]];
  rewrite Hto in Hcase; injection Hcase as -> ->; rewrite Hto in *; step.

(** Closes a case in which the event assumed to be in the run is not. *)
Ltac no_such_event := simplify_eq; decompose_list_elem_of; simplify_eq; congruence.

(** Identifies the event assumed to be in the run with the one that is. *)
Ltac inv_events := simplify_eq; decompose_list_elem_of; simplify_eq.

(** Splits on the two outcomes of the resolver. *)
Ltac timeout_cases t name :=
  let d := fresh "d" in
  let detail := fresh "detail" in
  let Hto := fresh "Hto" in
  destruct (getTimeout_cases t name defaultTimeout) as [[d Hto]|[detail Hto]];
  rewrite Hto in *; step.

(** [Update] on any response: the state stays, the error is appended unless
    the response has it already, and nothing else happens. *)
Lemma Update_appends (ctx : Context) (req : resource.UpdateRequest)
    (resp : resource.UpdateResponse) (w : oxide.Client.World) :
  Update ctx req resp w =
    ({| resource.State := resource.State resp;
        resource.Diagnostics :=
          diag.Append (resource.Diagnostics resp)
            [diag.NewErrorDiagnostic "Error updating floatingIp"
               "the oxide API currently does not support updating floatingIps"] |},
     [], w).
Proof. reflexivity. Qed.

(** C1. For every request (plan and state) and every state the response
    starts from, [Update] yields exactly one diagnostic, the error with
    summary "Error updating floatingIp"; it calls the client not at all
    (no event, and the platform is as before) and leaves the state as it
    was. *)
Theorem Update_always_rejects (ctx : Context) (req : resource.UpdateRequest)
    (st : tfsdk.State) (w : oxide.Client.World) :
  Update ctx req (resource.newResponse st) w =
    ({| resource.State := st;
        resource.Diagnostics :=
          [diag.NewErrorDiagnostic "Error updating floatingIp"
             "the oxide API currently does not support updating floatingIps"] |},
     [], w).
Proof. unfold_op. reflexivity. Qed.

(** C2. When the View call that [Read] makes answers with a not-found
    error, [Read] removes the resource from the state and raises no
    diagnostic; this holds for every prior state, so for every state that
    carries an identity. *)
Theorem Read_not_found_removes (ctx : Context) (st st0 : tfsdk.State)
    (w w' : oxide.Client.World) (resp : resource.ReadResponse) (evs : list Event)
    (c : Context) (p : oxide.FloatingIpViewParams) (e : error) :
  Read ctx {| resource.ReadState := st |} (resource.newResponse st0) w = (resp, evs, w') →
  CallFloatingIpView c p (inr e) ∈ evs →
  is404 e = true →
  resource.State resp = None ∧ resource.Diagnostics resp = [].
Proof.
  intros Hrun Hin H404. unfold_op.
  destruct st as [m|]; step; [|no_such_event].
  timeout_cases (Timeouts m) "read"; [|no_such_event].
  destruct (oxide.Client.FloatingIpView _ _ w) as [[O|err] w1]; step.
  - inv_events.
  - destruct (is404 err) eqn:Herr; step; inv_events; [done|congruence].
Qed.

(** The shape of a successful [Read]: the state it writes is the prior
    model with the eight fields of the object assigned, and the timeouts as
    they were. *)
Lemma Read_success (ctx : Context) (st st0 : tfsdk.State)
    (w w' : oxide.Client.World) (resp : resource.ReadResponse) (evs : list Event)
    (c : Context) (p : oxide.FloatingIpViewParams) (O : oxide.FloatingIp) :
  Read ctx {| resource.ReadState := st |} (resource.newResponse st0) w = (resp, evs, w') →
  CallFloatingIpView c p (inl O) ∈ evs →
  ∃ m, st = Some m ∧
    resp = {| resource.State := Some
                {| ID := types.StringValue (oxide.Id O);
                   Name := types.StringValue (oxide.FloatingIpName O);
                   Description := types.StringValue (oxide.Description O);
                   ProjectID := types.StringValue (oxide.ProjectId O);
                   IPPoolID := types.StringValue (oxide.IpPoolId O);
                   IP := types.StringValue (oxide.Ip O);
                   TimeCreated := types.StringValue (TimeString (oxide.TimeCreated O));
                   TimeModified := types.StringValue (TimeString (oxide.TimeModified O));
                   Timeouts := Timeouts m |};
              resource.Diagnostics := [] |}.
Proof.
  intros Hrun Hin. unfold_op.
  destruct st as [m|]; step; [|no_such_event].
  timeout_cases (Timeouts m) "read"; [|no_such_event].
  destruct (oxide.Client.FloatingIpView _ _ w) as [[O'|err] w1]; step.
  - inv_events. exists m. by destruct m.
  - destruct (is404 err); step; inv_events.
Qed.

(** The shape of a successful [Create]: the state it writes is the plan with
    the identity and the two timestamps of the object assigned. *)
Lemma Create_success (ctx : Context) (pl : tfsdk.Plan) (st0 : tfsdk.State)
    (w w' : oxide.Client.World) (resp : resource.CreateResponse) (evs : list Event)
    (c : Context) (p : oxide.FloatingIpCreateParams) (O : oxide.FloatingIp) :
  Create ctx {| resource.Plan := pl |} (resource.newResponse st0) w = (resp, evs, w') →
  CallFloatingIpCreate c p (inl O) ∈ evs →
  ∃ m, pl = Some m ∧
    resp = {| resource.State := Some
                {| ID := types.StringValue (oxide.Id O);
                   Name := Name m;
                   Description := Description m;
                   ProjectID := ProjectID m;
                   IPPoolID := IPPoolID m;
                   IP := IP m;
                   TimeCreated := types.StringValue (TimeString (oxide.TimeCreated O));
                   TimeModified := types.StringValue (TimeString (oxide.TimeModified O));
                   Timeouts := Timeouts m |};
              resource.Diagnostics := [] |}.
Proof.
  intros Hrun Hin. unfold_op.
  destruct pl as [m|]; step; [|no_such_event].
  timeout_cases (Timeouts m) "create"; [|no_such_event].
  destruct (oxide.Client.FloatingIpCreate _ _ w) as [[O'|err] w1]; step; inv_events.
  exists m. by destruct m.
Qed.

(** What [Delete] reports, by the answer of the client: nothing when the
    call left the floating IP absent. *)
Lemma Delete_diagnostics (ctx : Context) (m : floatingIpResourceModel) (st0 : tfsdk.State)
    (w : oxide.Client.World) (d : Duration) :
  timeouts.getTimeout (Timeouts m) "delete" defaultTimeout = (d, []) →
  let params := {| oxide.DeleteFloatingIp := types.ValueString (ID m) |} in
  let res := (oxide.Client.FloatingIpDelete (WithTimeout ctx d) params w).1 in
  let out := Delete ctx {| resource.DeleteState := Some m |} (resource.newResponse st0) w in
  out.2 = (oxide.Client.FloatingIpDelete (WithTimeout ctx d) params w).2 ∧
  remoteCalls out.1.2 = [CallFloatingIpDelete (WithTimeout ctx d) params res] ∧
  resource.State out.1.1 = st0 ∧
  (deleteGone res = true → resource.Diagnostics out.1.1 = []) ∧
  (deleteGone res = false → diag.HasError (resource.Diagnostics out.1.1) = true).
Proof.
  intros Hto. unfold_op. rewrite Hto. step.
  destruct (oxide.Client.FloatingIpDelete _ _ w) as [[err|] w1]; step; [|by eauto].
  destruct (is404 err); step; by eauto.
Qed.

(** A [Delete] that reports no error went through the resolver and the
    client: the request carried a model, the timeout resolved, and the call
    left the floating IP absent. *)
Lemma Delete_no_error (ctx : Context) (st st0 : tfsdk.State) (w : oxide.Client.World) :
  diag.HasError
    (resource.Diagnostics (Delete ctx {| resource.DeleteState := st |}
                             (resource.newResponse st0) w).1.1) = false →
  ∃ m d, st = Some m ∧
    timeouts.getTimeout (Timeouts m) "delete" defaultTimeout = (d, []) ∧
    deleteGone (oxide.Client.FloatingIpDelete (WithTimeout ctx d)
                  {| oxide.DeleteFloatingIp := types.ValueString (ID m) |} w).1 = true.
Proof.
  intros Hok. destruct st as [m|]; [|done].
  destruct (getTimeout_cases (Timeouts m) "delete" defaultTimeout) as [[d Hto]|[detail Hto]].
  - exists m, d. split_and!; [done..|].
    destruct (Delete_diagnostics ctx m st0 w d Hto) as (_ & _ & _ & _ & Hbad).
    destruct (deleteGone _) eqn:Hgone; [done|].
    rewrite Hbad in Hok; done.
  - unfold_op. rewrite Hto in Hok. step. done.
Qed.

(** C3. [Delete] treats a not-found answer of the Delete call as success:
    on every platform, whenever the call it makes answers with a not-found
    error, it reports no diagnostic.  So of two deletes in sequence for the
    same state the second asks for the same floating IP as the first, and it
    reports nothing whenever its call finds the floating IP gone: the answer
    is success, or the not-found error that a platform gives once the first
    delete has gone through. *)
Theorem Delete_idempotent (ctx ctx' : Context) (st st0 st0' : tfsdk.State)
    (w w1 w2 : oxide.Client.World) (resp1 resp2 : resource.DeleteResponse)
    (evs1 evs2 : list Event) :
  Delete ctx {| resource.DeleteState := st |} (resource.newResponse st0) w
    = (resp1, evs1, w1) →
  Delete ctx' {| resource.DeleteState := st |} (resource.newResponse st0') w1
    = (resp2, evs2, w2) →
  (∀ c p err, CallFloatingIpDelete c p (Some err) ∈ evs1 → is404 err = true →
     resource.Diagnostics resp1 = []) ∧
  (∀ c1 p1 res1 c2 p2 res2,
     CallFloatingIpDelete c1 p1 res1 ∈ evs1 → CallFloatingIpDelete c2 p2 res2 ∈ evs2 →
     p2 = p1) ∧
  (∀ c p res, CallFloatingIpDelete c p res ∈ evs2 → deleteGone res = true →
     resource.Diagnostics resp2 = []).
Proof.
  intros Hrun1 Hrun2. unfold_op.
  destruct st as [m|]; step; [|split_and!; intros; no_such_event].
  timeout_cases (Timeouts m) "delete"; [|split_and!; intros; no_such_event].
  destruct (oxide.Client.FloatingIpDelete _ _ w) as [[err1|] w'];
    destruct (oxide.Client.FloatingIpDelete _ _ w1) as [[err2|] w''];
    step; try destruct (is404 err1) eqn:Herr1; try destruct (is404 err2) eqn:Herr2;
    step; simplify_eq; (split_and!; intros; inv_events; cbn in *; done || congruence).
Qed.

(** On a platform where a deleted floating IP stays deleted, the second of
    two deletes in sequence reports nothing if the first reported no
    error. *)
Lemma Delete_twice_where_deleted_stays_deleted (ctx : Context) (st st0 : tfsdk.State)
    (w w1 w2 : oxide.Client.World) (resp1 resp2 : resource.DeleteResponse)
    (evs1 evs2 : list Event) :
  deletedStaysDeleted →
  Delete ctx {| resource.DeleteState := st |} (resource.newResponse st0) w
    = (resp1, evs1, w1) →
  Delete ctx {| resource.DeleteState := st |} (resource.newResponse st0) w1
    = (resp2, evs2, w2) →
  diag.HasError (resource.Diagnostics resp1) = false →
  resource.Diagnostics resp2 = [].
Proof.
  intros Hplatform Hrun1 Hrun2 Hok.
  pose proof (Delete_no_error ctx st st0 w) as Hfirst.
  rewrite Hrun1 in Hfirst. destruct (Hfirst Hok) as (m & d & -> & Hto & Hgone).
  destruct (Delete_diagnostics ctx m st0 w d Hto) as (Hw & _).
  destruct (Delete_diagnostics ctx m st0 w1 d Hto) as (_ & _ & _ & Hnone & _).
  rewrite Hrun1 in Hw. cbn in Hw. rewrite Hrun2 in Hnone. cbn in Hnone.
  apply Hnone. subst w1. by apply Hplatform.
Qed.

(** C4 (amended). After a successful [Read], eight fields of the state hold
    the fields of the object the View call returned: identity, name,
    description, project id, pool id, ip and the two timestamps, the latter
    as formatted by [Time.String].  The state model has no field for the
    bound instance. *)
Theorem Read_reflects_remote :
  ReadReflects ID oxide.Id ∧
  ReadReflects Name oxide.FloatingIpName ∧
  ReadReflects Description oxide.Description ∧
  ReadReflects ProjectID oxide.ProjectId ∧
  ReadReflects IPPoolID oxide.IpPoolId ∧
  ReadReflects IP oxide.Ip ∧
  ReadReflects TimeCreated (λ O, TimeString (oxide.TimeCreated O)) ∧
  ReadReflects TimeModified (λ O, TimeString (oxide.TimeModified O)).
Proof.
  split_and!; intros ctx st st0 w w' resp evs c p O Hrun Hin;
    destruct (Read_success _ _ _ _ _ _ _ _ _ _ Hrun Hin) as (m & -> & ->);
    eexists; split; reflexivity.
Qed.

(** C5 (amended). After a successful [Create], the state holds the
    identity and the two timestamps of the object the Create call returned,
    and every other field as the plan has it: name, description, project id,
    pool id, ip and the timeouts are the declared ones, whatever the object
    says. *)
Theorem Create_merges_computed :
  CreateMerges ID oxide.Id ∧
  CreateMerges TimeCreated (λ O, TimeString (oxide.TimeCreated O)) ∧
  CreateMerges TimeModified (λ O, TimeString (oxide.TimeModified O)) ∧
  CreateKeeps Name ∧
  CreateKeeps Description ∧
  CreateKeeps ProjectID ∧
  CreateKeeps IPPoolID ∧
  CreateKeeps IP ∧
  CreateKeeps Timeouts.
Proof.
  split_and!; intros ctx pl st0 w w' resp evs c p O Hrun Hin;
    destruct (Create_success _ _ _ _ _ _ _ _ _ _ Hrun Hin) as (m & -> & ->);
    repeat eexists.
Qed.

(** C6. When the Create call that [Create] makes fails, the state of the
    response is the one it started from (nothing is persisted, so no identity
    is assigned), the error of the client is the one diagnostic, with its
    message in the detail, and that call was the only one. *)
Theorem Create_failure_atomic (ctx : Context) (pl : tfsdk.Plan) (st0 : tfsdk.State)
    (w w' : oxide.Client.World) (resp : resource.CreateResponse) (evs : list Event)
    (c : Context) (p : oxide.FloatingIpCreateParams) (err : error) :
  Create ctx {| resource.Plan := pl |} (resource.newResponse st0) w = (resp, evs, w') →
  CallFloatingIpCreate c p (inr err) ∈ evs →
  resource.State resp = st0 ∧
  resource.Diagnostics resp =
    [diag.NewErrorDiagnostic "Error creating floatingIp" ("API error: " +:+ Error err)] ∧
  evs = [CallFloatingIpCreate c p (inr err)].
Proof.
  intros Hrun Hin. unfold_op.
  destruct pl as [m|]; step; [|no_such_event].
  timeout_cases (Timeouts m) "create"; [|no_such_event].
  destruct (oxide.Client.FloatingIpCreate _ _ w) as [[O|err'] w1]; step; inv_events.
  done.
Qed.

(** Closes [resolvesOwnTimeout] once the run is known. *)
Ltac resolved :=
  simplify_eq; split_and!;
  [ set_solver
  | done
  | let e := fresh "e" in
    let He := fresh "He" in
    intros e He; cbn in He; decompose_list_elem_of; subst; done ].

(** [Create] resolves the timeout configured under "create". *)
Lemma Create_resolves_timeout : resolvesOwnTimeout "create" runCreate.
Proof.
  intros ctx m st0 w w' d diags resp evs Hto Hrun. unfold_op.
  resolver_cases (Timeouts m) "create" Hto.
  - destruct (oxide.Client.FloatingIpCreate _ _ w) as [[O|err] w1]; step; resolved.
  - resolved.
Qed.

(** [Read] resolves the timeout configured under "read". *)
Lemma Read_resolves_timeout : resolvesOwnTimeout "read" runRead.
Proof.
  intros ctx m st0 w w' d diags resp evs Hto Hrun. unfold_op.
  resolver_cases (Timeouts m) "read" Hto.
  - destruct (oxide.Client.FloatingIpView _ _ w) as [[O|err] w1]; step;
      [|destruct (is404 err); step]; resolved.
  - resolved.
Qed.

(** [Delete] resolves the timeout configured under "delete". *)
Lemma Delete_resolves_timeout : resolvesOwnTimeout "delete" runDelete.
Proof.
  intros ctx m st0 w w' d diags resp evs Hto Hrun. unfold_op.
  resolver_cases (Timeouts m) "delete" Hto.
  - destruct (oxide.Client.FloatingIpDelete _ _ w) as [[err|] w1]; step;
      [destruct (is404 err); step|]; resolved.
  - resolved.
Qed.

(** C7 (amended). [Create], [Read] and [Delete] each resolve their own
    timeout before the call to the client: [Create] the one the plan
    configures under "create", [Read] and [Delete] the ones the state
    configures under "read" and "delete", the default standing in for what is
    not configured.  A failed resolution is reported and no call is made; the
    call that is made runs under the context of that invocation bounded by
    the duration resolved in it.  [Update] resolves no timeout: its outcome is
    the same for every request, and it makes no call. *)
Theorem lifecycle_timeouts :
  resolvesOwnTimeout "create" runCreate ∧
  resolvesOwnTimeout "read" runRead ∧
  resolvesOwnTimeout "delete" runDelete ∧
  (∀ ctx ctx' m m' resp w,
     runUpdate ctx m resp w = runUpdate ctx' m' resp w ∧
     (runUpdate ctx m resp w).1.2 = []).
Proof.
  split_and!;
    [apply Create_resolves_timeout | apply Read_resolves_timeout
    | apply Delete_resolves_timeout | done].
Qed.

(** C8 (amended). The persisted state has exactly nine fields, the ones
    tagged id, name, description, project_id, ip_pool_id, ip, time_created,
    time_modified and timeouts; they are pairwise distinct, they are the
    attributes the schema declares, and a state written from a model reads
    back as that model.  There is no field for a bound instance. *)
Theorem persisted_state_layout :
  tfsdkTag <$> modelFields =
    ["id"; "name"; "description"; "project_id"; "ip_pool_id"; "ip";
     "time_created"; "time_modified"; "timeouts"] ∧
  NoDup (tfsdkTag <$> modelFields) ∧
  dom (schema.Attributes Schema) = list_to_set (tfsdkTag <$> modelFields) ∧
  (∀ st m, tfsdk.Get (tfsdk.Set_ st m).1 = ([], m)).
Proof.
  split_and!.
  - reflexivity.
  - by apply (bool_decide_unpack _).
  - unfold Schema. cbn [schema.Attributes]. rewrite dom_list_to_map_L.
    apply set_eq. intros name. rewrite !elem_of_list_to_set.
    cbn [fmap list_fmap fst modelFields tfsdkTag].
    rewrite !elem_of_cons, !elem_of_nil. tauto.
  - done.
Qed.

(** C9. Neither [Read] nor [Delete] checks the identity of the state
    before it calls the client: for a state whose ID is null or the empty
    string, once the timeout has resolved, the View call, respectively the
    Delete call, is made, and the reference it carries is the empty string. *)
Theorem no_local_identity_check (ctx : Context) (m : floatingIpResourceModel)
    (st0 : tfsdk.State) (w : oxide.Client.World) (dr dd : Duration) :
  ID m = types.StringNull ∨ ID m = types.StringValue EmptyString →
  timeouts.Read (Timeouts m) defaultTimeout = (dr, []) →
  timeouts.Delete (Timeouts m) defaultTimeout = (dd, []) →
  (∃ res, remoteCalls (runRead ctx m (resource.newResponse st0) w).1.2 =
            [CallFloatingIpView (WithTimeout ctx dr)
               {| oxide.ViewFloatingIp := EmptyString |} res]) ∧
  (∃ res, remoteCalls (runDelete ctx m (resource.newResponse st0) w).1.2 =
            [CallFloatingIpDelete (WithTimeout ctx dd)
               {| oxide.DeleteFloatingIp := EmptyString |} res]).
Proof.
  intros Hid Hr Hd.
  assert (types.ValueString (ID m) = EmptyString) as Hempty
    by (destruct Hid as [->| ->]; done).
  split.
  - unfold_op. rewrite Hr, Hempty. step.
    destruct (oxide.Client.FloatingIpView _ _ w) as [[O|err] w1]; step;
      [|destruct (is404 err); step]; eauto.
  - unfold_op. rewrite Hd, Hempty. step.
    destruct (oxide.Client.FloatingIpDelete _ _ w) as [[err|] w1]; step;
      [destruct (is404 err); step|]; eauto.
Qed.

(** C10. A successful [Read] carries the timeout configuration through:
    the state it writes differs from the prior one in the eight fields the
    object supplies and in nothing else, so its timeouts are the prior
    ones. *)
Theorem Read_preserves_timeouts (ctx : Context) (st st0 : tfsdk.State)
    (w w' : oxide.Client.World) (resp : resource.ReadResponse) (evs : list Event)
    (c : Context) (p : oxide.FloatingIpViewParams) (O : oxide.FloatingIp) :
  Read ctx {| resource.ReadState := st |} (resource.newResponse st0) w = (resp, evs, w') →
  CallFloatingIpView c p (inl O) ∈ evs →
  ∃ m m', st = Some m ∧ resource.State resp = Some m' ∧
    Timeouts m' = Timeouts m ∧
    m' = setTimeModified (TimeModified m')
           (setTimeCreated (TimeCreated m')
              (setProjectID (ProjectID m')
                 (setIPPoolID (IPPoolID m')
                    (setIP (IP m')
                       (setName (Name m')
                          (setID (ID m')
                             (setDescription (Description m') m))))))).
Proof.
  intros Hrun Hin.
  destruct (Read_success _ _ _ _ _ _ _ _ _ _ Hrun Hin) as (m & -> & ->).
  eexists m, _. split_and!; [reflexivity..|]. by destruct m.
Qed.

End properties.

(** ** Further properties: diagnostics *)

Section diagnostics.

Lemma Append_prefix (diags new : diag.Diagnostics) : diags `prefix_of` diag.Append diags new.
Proof.
  revert diags. induction new as [|d new IH]; intros diags; [done|].
  cbn. destruct (diag.Contains diags d); [apply IH|].
  etrans; [|apply IH]. by apply prefix_app_r.
Qed.

Lemma HasError_app (diags1 diags2 : diag.Diagnostics) :
  diag.HasError (diags1 ++ diags2) = diag.HasError diags1 || diag.HasError diags2.
Proof. apply existsb_app. Qed.

Lemma HasError_prefix (diags1 diags2 : diag.Diagnostics) :
  diags1 `prefix_of` diags2 → diag.HasError diags1 = true → diag.HasError diags2 = true.
Proof. intros [k ->] H. by rewrite HasError_app, H. Qed.

Lemma HasError_Append (diags new : diag.Diagnostics) :
  diag.HasError diags = true → diag.HasError (diag.Append diags new) = true.
Proof. apply HasError_prefix, Append_prefix. Qed.

Lemma reportsOnTopOf_refl (resp : resource.Response) : reportsOnTopOf resp resp.
Proof. by unfold reportsOnTopOf. Qed.

Lemma reportsOnTopOf_trans (resp1 resp2 resp3 : resource.Response) :
  reportsOnTopOf resp1 resp2 → reportsOnTopOf resp2 resp3 → reportsOnTopOf resp1 resp3.
Proof. unfold reportsOnTopOf. by etrans. Qed.

Lemma reportsOnTopOf_AppendDiagnostics (resp : resource.Response) (diags : diag.Diagnostics) :
  reportsOnTopOf resp (resource.AppendDiagnostics resp diags).
Proof. apply Append_prefix. Qed.

Lemma reportsOnTopOf_AddError (resp : resource.Response) (summary detail : string) :
  reportsOnTopOf resp (resource.AddError resp summary detail).
Proof. apply Append_prefix. Qed.

Lemma reportsOnTopOf_state (resp resp' : resource.Response) (st : tfsdk.State) :
  reportsOnTopOf resp resp' →
  reportsOnTopOf resp
    {| resource.State := st; resource.Diagnostics := resource.Diagnostics resp' |}.
Proof. by unfold reportsOnTopOf. Qed.

Lemma reportsOnTopOf_then_Append (resp resp' : resource.Response) (diags : diag.Diagnostics) :
  reportsOnTopOf resp resp' → reportsOnTopOf resp (resource.AppendDiagnostics resp' diags).
Proof. intros H. eapply reportsOnTopOf_trans; [done|apply reportsOnTopOf_AppendDiagnostics]. Qed.

Lemma reportsOnTopOf_then_AddError (resp resp' : resource.Response) (summary detail : string) :
  reportsOnTopOf resp resp' → reportsOnTopOf resp (resource.AddError resp' summary detail).
Proof. intros H. eapply reportsOnTopOf_trans; [done|apply reportsOnTopOf_AddError]. Qed.

Lemma HasError_AppendDiagnostics (resp : resource.Response) (diags : diag.Diagnostics) :
  diag.HasError (resource.Diagnostics resp) = true →
  diag.HasError (resource.Diagnostics (resource.AppendDiagnostics resp diags)) = true.
Proof. apply HasError_Append. Qed.

End diagnostics.

Create HintDb reports.

#[global] Hint Resolve reportsOnTopOf_refl reportsOnTopOf_state
  reportsOnTopOf_then_Append reportsOnTopOf_then_AddError : reports.

(** ** Further properties: the operations on any response *)

Section coverage.

Context `{rt : GoRuntime} `{helpers : !ProviderHelpers} `{client : !oxide.Client.Client}.

#[local] Arguments timeouts.getTimeout : simpl never.
#[local] Arguments diag.Append : simpl never.
#[local] Arguments diag.HasError : simpl never.
#[local] Arguments resource.AppendDiagnostics : simpl never.
#[local] Arguments resource.AddError : simpl never.
#[local] Arguments resource.newResponse : simpl never.

(** Unfolds an operation and splits on every test it makes. *)
Ltac all_paths :=
  unfold runCreate, runRead, runUpdate, runDelete, Create, Read, Update, Delete,
    timeouts.Create, timeouts.Read, timeouts.Update, timeouts.Delete,
    clientFloatingIpCreate, clientFloatingIpView, clientFloatingIpDelete, tflogTrace,
    mbind, mret, Op_bind, Op_ret in *;
  cbn in *; repeat (case_match; cbn in * ); simplify_eq; cbn in *.

(** X1. No operation retries: along every path, for every request and
    every response it is handed, an operation calls the client at most
    once. *)
Theorem at_most_one_remote_call (ctx : Context) (w : oxide.Client.World)
    (resp : resource.Response) :
  (∀ req, length (remoteCalls (Create ctx req resp w).1.2) ≤ 1)%nat ∧
  (∀ req, length (remoteCalls (Read ctx req resp w).1.2) ≤ 1)%nat ∧
  (∀ req, length (remoteCalls (Update ctx req resp w).1.2) ≤ 1)%nat ∧
  (∀ req, length (remoteCalls (Delete ctx req resp w).1.2) ≤ 1)%nat.
Proof. split_and!; intros req; all_paths; lia. Qed.

(** X2. An operation that makes no call changes nothing: if the run of an
    operation holds no call to the client, then it holds no event at all, the
    platform is as before, and the state of the response is the one it was
    handed.  This covers every failed validation. *)
Theorem no_call_no_change (ctx : Context) (w w' : oxide.Client.World)
    (resp resp' : resource.Response) (evs : list Event) :
  remoteCalls evs = [] →
  (∀ req, Create ctx req resp w = (resp', evs, w') →
     evs = [] ∧ w' = w ∧ resource.State resp' = resource.State resp) ∧
  (∀ req, Read ctx req resp w = (resp', evs, w') →
     evs = [] ∧ w' = w ∧ resource.State resp' = resource.State resp) ∧
  (∀ req, Update ctx req resp w = (resp', evs, w') →
     evs = [] ∧ w' = w ∧ resource.State resp' = resource.State resp) ∧
  (∀ req, Delete ctx req resp w = (resp', evs, w') →
     evs = [] ∧ w' = w ∧ resource.State resp' = resource.State resp).
Proof. intros Hnone. split_and!; intros req Hrun; all_paths; done. Qed.

(** X3. A response that already carries an error stops [Create], [Read]
    and [Delete] before they do anything: no call is made, nothing is
    traced, and the state of the response stays. *)
Theorem prior_error_short_circuits (ctx : Context) (w : oxide.Client.World)
    (resp : resource.Response) :
  diag.HasError (resource.Diagnostics resp) = true →
  (∀ req, ∃ resp', Create ctx req resp w = (resp', [], w) ∧
                   resource.State resp' = resource.State resp) ∧
  (∀ req, ∃ resp', Read ctx req resp w = (resp', [], w) ∧
                   resource.State resp' = resource.State resp) ∧
  (∀ req, ∃ resp', Delete ctx req resp w = (resp', [], w) ∧
                   resource.State resp' = resource.State resp).
Proof.
  intros Herr. split_and!; intros req;
    unfold Create, Read, Delete;
    destruct (tfsdk.Get _) as [diags m];
    rewrite (HasError_AppendDiagnostics resp diags Herr); by eexists.
Qed.

(** X4. No operation drops a diagnostic: along every path the diagnostics
    of the response it returns are those it was handed, in order, followed by
    what it reports itself. *)
Theorem diagnostics_only_grow (ctx : Context) (w : oxide.Client.World)
    (resp : resource.Response) :
  (∀ req, reportsOnTopOf resp (Create ctx req resp w).1.1) ∧
  (∀ req, reportsOnTopOf resp (Read ctx req resp w).1.1) ∧
  (∀ req, reportsOnTopOf resp (Update ctx req resp w).1.1) ∧
  (∀ req, reportsOnTopOf resp (Delete ctx req resp w).1.1).
Proof. split_and!; intros req; all_paths; eauto 10 with reports. Qed.

(** X5. [Delete] never writes the state of the response, whatever the
    request, the response and the answer of the platform: removing the record
    after a successful delete is left to the caller. *)
Theorem Delete_never_writes_state (ctx : Context) (req : resource.DeleteRequest)
    (resp : resource.DeleteResponse) (w : oxide.Client.World) :
  resource.State (Delete ctx req resp w).1.1 = resource.State resp.
Proof. all_paths; done. Qed.

(** Runs an operation on a fresh response as far as the diagnostics decide. *)
Ltac run_op :=
  unfold runCreate, runRead, runUpdate, runDelete, Create, Read, Update, Delete,
    timeouts.Create, timeouts.Read, timeouts.Update, timeouts.Delete,
    clientFloatingIpCreate, clientFloatingIpView, clientFloatingIpDelete, tflogTrace,
    mbind, mret, Op_bind, Op_ret in *;
  repeat (progress (cbn in *; autorewrite with diag in * )).

Ltac run_on := repeat (progress (cbn in *; autorewrite with diag in * )).

Ltac resolver t name :=
  let d := fresh "d" in
  let detail := fresh "detail" in
  let Hto := fresh "Hto" in
  destruct (getTimeout_cases t name defaultTimeout) as [[d Hto]|[detail Hto]];
  rewrite Hto in *; run_on.

Ltac events := simplify_eq; decompose_list_elem_of; simplify_eq.

(** X6. When the View call that [Read] makes fails with an error that is
    not a not-found answer, [Read] reports it as the one diagnostic, with the
    message of the error, and leaves the state as it was: the record is
    neither refreshed nor removed. *)
Theorem Read_other_error_reported (ctx : Context) (st st0 : tfsdk.State)
    (w w' : oxide.Client.World) (resp : resource.ReadResponse) (evs : list Event)
    (c : Context) (p : oxide.FloatingIpViewParams) (err : error) :
  Read ctx {| resource.ReadState := st |} (resource.newResponse st0) w = (resp, evs, w') →
  CallFloatingIpView c p (inr err) ∈ evs →
  is404 err = false →
  resource.State resp = st0 ∧
  resource.Diagnostics resp =
    [diag.NewErrorDiagnostic "Unable to read floatingIp:" ("API error: " +:+ Error err)] ∧
  evs = [CallFloatingIpView c p (inr err)].
Proof.
  intros Hrun Hin H404. run_op.
  destruct st as [m|]; run_on; [|events].
  resolver (Timeouts m) "read"; [|events].
  destruct (oxide.Client.FloatingIpView _ _ w) as [[O|err'] w1]; run_on; [events|].
  destruct (is404 err') eqn:Herr; run_on; events; [congruence|done].
Qed.

(** X7. When the Delete call that [Delete] makes fails with an error that
    is not a not-found answer, [Delete] reports it as the one diagnostic, with
    the message of the error, keeps the state, and does not trace the
    floating IP as deleted. *)
Theorem Delete_other_error_reported (ctx : Context) (st st0 : tfsdk.State)
    (w w' : oxide.Client.World) (resp : resource.DeleteResponse) (evs : list Event)
    (c : Context) (p : oxide.FloatingIpDeleteParams) (err : error) :
  Delete ctx {| resource.DeleteState := st |} (resource.newResponse st0) w = (resp, evs, w') →
  CallFloatingIpDelete c p (Some err) ∈ evs →
  is404 err = false →
  resource.State resp = st0 ∧
  resource.Diagnostics resp =
    [diag.NewErrorDiagnostic "Unable to delete floatingIp:" ("API error: " +:+ Error err)] ∧
  evs = [CallFloatingIpDelete c p (Some err)].
Proof.
  intros Hrun Hin H404. run_op.
  destruct st as [m|]; run_on; [|events].
  resolver (Timeouts m) "delete"; [|events].
  destruct (oxide.Client.FloatingIpDelete _ _ w) as [[err'|] w1]; run_on; [|events].
  destruct (is404 err') eqn:Herr; run_on; events; [congruence|done].
Qed.

(** X8. What [Create] sends depends on the declared fields only, as
    strings: two plans whose project, name, description, ip and pool reach the
    platform as the same strings (null, unknown and empty all being the empty
    string) and that configure the same timeout for create make the same
    call, get the same answer and report the same diagnostics, whatever their
    id, their timestamps and their other timeouts are. *)
Theorem Create_sends_declared_only (ctx : Context) (m1 m2 : floatingIpResourceModel)
    (st0 : tfsdk.State) (w : oxide.Client.World) :
  sameOnTheWire (ProjectID m1) (ProjectID m2) →
  sameOnTheWire (Name m1) (Name m2) →
  sameOnTheWire (Description m1) (Description m2) →
  sameOnTheWire (IP m1) (IP m2) →
  sameOnTheWire (IPPoolID m1) (IPPoolID m2) →
  timeouts.Attributes (Timeouts m1) !! "create" = timeouts.Attributes (Timeouts m2) !! "create" →
  let out1 := runCreate ctx m1 (resource.newResponse st0) w in
  let out2 := runCreate ctx m2 (resource.newResponse st0) w in
  out1.1.2 = out2.1.2 ∧ out1.2 = out2.2 ∧
  resource.Diagnostics out1.1.1 = resource.Diagnostics out2.1.1.
Proof.
  unfold sameOnTheWire. intros Hproject Hname Hdescription Hip Hpool Hto. run_op.
  rewrite (getTimeout_own_attribute _ _ _ defaultTimeout Hto).
  rewrite Hproject, Hname, Hdescription, Hip, Hpool.
  resolver (Timeouts m2) "create"; [|done].
  destruct (oxide.Client.FloatingIpCreate _ _ w) as [[O|err] w1]; run_on; done.
Qed.

(** X9. [Read] knows the floating IP by its identity alone: two prior
    states with the same id string and the same timeouts are refreshed to the
    same response, by the same call, whatever name, description, project,
    pool, ip and timestamps they recorded. *)
Theorem Read_by_identity_alone (ctx : Context) (m1 m2 : floatingIpResourceModel)
    (st0 : tfsdk.State) (w : oxide.Client.World) :
  sameOnTheWire (ID m1) (ID m2) →
  Timeouts m1 = Timeouts m2 →
  runRead ctx m1 (resource.newResponse st0) w = runRead ctx m2 (resource.newResponse st0) w.
Proof.
  unfold sameOnTheWire. intros Hid Hto. run_op. rewrite Hid, Hto.
  resolver (Timeouts m2) "read"; [|done].
  destruct (oxide.Client.FloatingIpView _ _ w) as [[O|err] w1]; run_on; [|done].
  destruct m1, m2; cbn in *; by subst.
Qed.

(** X10. Refreshing is idempotent: when a [Read] has written a state from
    the object [O], a second [Read] of that state asks for the identity of
    [O], and if the platform answers with [O] again it returns the very same
    response. *)
Theorem Read_refresh_idempotent (ctx ctx' : Context) (st st0 : tfsdk.State)
    (w w1 w2 : oxide.Client.World) (resp1 resp2 : resource.ReadResponse)
    (evs1 evs2 : list Event) (c1 c2 : Context) (p1 p2 : oxide.FloatingIpViewParams)
    (O : oxide.FloatingIp) (res : oxide.FloatingIp + error) :
  Read ctx {| resource.ReadState := st |} (resource.newResponse st0) w = (resp1, evs1, w1) →
  CallFloatingIpView c1 p1 (inl O) ∈ evs1 →
  Read ctx' {| resource.ReadState := resource.State resp1 |}
    (resource.newResponse (resource.State resp1)) w1 = (resp2, evs2, w2) →
  CallFloatingIpView c2 p2 res ∈ evs2 →
  oxide.ViewFloatingIp p2 = oxide.Id O ∧ (res = inl O → resp2 = resp1).
Proof.
  intros Hrun1 Hin1 Hrun2 Hin2.
  destruct (Read_success _ _ _ _ _ _ _ _ _ _ Hrun1 Hin1) as (m & -> & ->).
  split.
  - clear Hrun1 Hin1. run_op.
    resolver (Timeouts m) "read"; [|events].
    destruct (oxide.Client.FloatingIpView _ _ w1) as [[O'|err] w1']; run_on;
      [|destruct (is404 err); run_on]; by events.
  - intros ->.
    by destruct (Read_success _ _ _ _ _ _ _ _ _ _ Hrun2 Hin2) as (m' & [= <-] & ->).
Qed.

(** X11. Create, then Read: the [Read] of the state that a successful
    [Create] wrote asks for the identity the platform assigned, and when the
    platform answers with the created object the refreshed state has the id,
    the timestamps and the timeouts that [Create] wrote; the declared fields
    are the ones that [Read] may replace by the values of the platform. *)
Theorem Create_then_Read (ctx ctx' : Context) (pl : tfsdk.Plan) (st0 : tfsdk.State)
    (w w1 w2 : oxide.Client.World) (resp1 : resource.CreateResponse)
    (resp2 : resource.ReadResponse) (evs1 evs2 : list Event)
    (c1 c2 : Context) (p1 : oxide.FloatingIpCreateParams) (p2 : oxide.FloatingIpViewParams)
    (O : oxide.FloatingIp) (res : oxide.FloatingIp + error) :
  Create ctx {| resource.Plan := pl |} (resource.newResponse st0) w = (resp1, evs1, w1) →
  CallFloatingIpCreate c1 p1 (inl O) ∈ evs1 →
  Read ctx' {| resource.ReadState := resource.State resp1 |}
    (resource.newResponse (resource.State resp1)) w1 = (resp2, evs2, w2) →
  CallFloatingIpView c2 p2 res ∈ evs2 →
  oxide.ViewFloatingIp p2 = oxide.Id O ∧
  (res = inl O →
   ∃ m1 m2, resource.State resp1 = Some m1 ∧ resource.State resp2 = Some m2 ∧
     ID m2 = ID m1 ∧ TimeCreated m2 = TimeCreated m1 ∧
     TimeModified m2 = TimeModified m1 ∧ Timeouts m2 = Timeouts m1).
Proof.
  intros Hrun1 Hin1 Hrun2 Hin2.
  destruct (Create_success _ _ _ _ _ _ _ _ _ _ Hrun1 Hin1) as (m & -> & ->).
  split.
  - clear Hrun1 Hin1. run_op.
    resolver (Timeouts m) "read"; [|events].
    destruct (oxide.Client.FloatingIpView _ _ w1) as [[O'|err] w1']; run_on;
      [|destruct (is404 err); run_on]; by events.
  - intros ->.
    destruct (Read_success _ _ _ _ _ _ _ _ _ _ Hrun2 Hin2) as (m' & [= <-] & ->).
    by eexists _, _.
Qed.

(** X12. Create, then Delete: the [Delete] of the state that a successful
    [Create] wrote asks the platform to delete the identity it assigned. *)
Theorem Create_then_Delete (ctx ctx' : Context) (pl : tfsdk.Plan) (st0 : tfsdk.State)
    (w w1 w2 : oxide.Client.World) (resp1 : resource.CreateResponse)
    (resp2 : resource.DeleteResponse) (evs1 evs2 : list Event)
    (c1 c2 : Context) (p1 : oxide.FloatingIpCreateParams) (p2 : oxide.FloatingIpDeleteParams)
    (O : oxide.FloatingIp) (res : option error) :
  Create ctx {| resource.Plan := pl |} (resource.newResponse st0) w = (resp1, evs1, w1) →
  CallFloatingIpCreate c1 p1 (inl O) ∈ evs1 →
  Delete ctx' {| resource.DeleteState := resource.State resp1 |}
    (resource.newResponse (resource.State resp1)) w1 = (resp2, evs2, w2) →
  CallFloatingIpDelete c2 p2 res ∈ evs2 →
  oxide.DeleteFloatingIp p2 = oxide.Id O.
Proof.
  intros Hrun1 Hin1 Hrun2 Hin2.
  destruct (Create_success _ _ _ _ _ _ _ _ _ _ Hrun1 Hin1) as (m & -> & ->).
  clear Hrun1 Hin1. run_op.
  resolver (Timeouts m) "delete"; [|events].
  destruct (oxide.Client.FloatingIpDelete _ _ w1) as [[err|] w1']; run_on;
    [destruct (is404 err); run_on|]; by events.
Qed.

(** X13. Import, then Read: [ImportState] on the null state writes a state
    that holds the given identifier and nothing else, without a diagnostic;
    the [Read] of that state makes one View call, for that identifier, under
    the default timeout, and turns its answer into the full state, the removal
    of the record, or an error that keeps the imported state. *)
Theorem ImportState_then_Read (ctx ctx' : Context) (id : string) (w : oxide.Client.World) :
  let imported :=
    ImportState ctx {| resource.ImportID := id |} (resource.newResponse None) in
  let out :=
    Read ctx' {| resource.ReadState := resource.State imported |}
      (resource.newResponse (resource.State imported)) w in
  imported = resource.newResponse (Some (setID (types.StringValue id) zeroModel)) ∧
  ∃ res,
    remoteCalls out.1.2 =
      [CallFloatingIpView (WithTimeout ctx' defaultTimeout)
         {| oxide.ViewFloatingIp := id |} res] ∧
    match res with
    | inl obj =>
        out.1.1 =
          resource.newResponse (Some
            {| ID := types.StringValue (oxide.Id obj);
               Name := types.StringValue (oxide.FloatingIpName obj);
               Description := types.StringValue (oxide.Description obj);
               ProjectID := types.StringValue (oxide.ProjectId obj);
               IPPoolID := types.StringValue (oxide.IpPoolId obj);
               IP := types.StringValue (oxide.Ip obj);
               TimeCreated := types.StringValue (TimeString (oxide.TimeCreated obj));
               TimeModified := types.StringValue (TimeString (oxide.TimeModified obj));
               Timeouts := {| timeouts.Attributes := ∅ |} |})
    | inr err =>
        if is404 err then out.1.1 = resource.newResponse None
        else resource.State out.1.1 = resource.State imported
    end.
Proof.
  split; [done|]. run_op. rewrite getTimeout_default. run_on.
  destruct (oxide.Client.FloatingIpView _ _ w) as [[O|err] w1]; run_on.
  - by eexists (inl O).
  - exists (inr err). destruct (is404 err); by run_on.
Qed.

(** X14. With no timeouts configured, [Create], [Read] and [Delete] each
    make their call, and make it under the ambient context bounded by
    [defaultTimeout]. *)
Theorem default_timeout_applies (ctx : Context) (m : floatingIpResourceModel)
    (st0 : tfsdk.State) (w : oxide.Client.World) :
  timeouts.Attributes (Timeouts m) = ∅ →
  (∃ p res, remoteCalls (runCreate ctx m (resource.newResponse st0) w).1.2 =
              [CallFloatingIpCreate (WithTimeout ctx defaultTimeout) p res]) ∧
  (∃ p res, remoteCalls (runRead ctx m (resource.newResponse st0) w).1.2 =
              [CallFloatingIpView (WithTimeout ctx defaultTimeout) p res]) ∧
  (∃ p res, remoteCalls (runDelete ctx m (resource.newResponse st0) w).1.2 =
              [CallFloatingIpDelete (WithTimeout ctx defaultTimeout) p res]).
Proof.
  intros Hnone.
  assert (∀ name, timeouts.getTimeout (Timeouts m) name defaultTimeout = (defaultTimeout, []))
    as Hdefault.
  { intros name. unfold timeouts.getTimeout. by rewrite Hnone, lookup_empty. }
  split_and!; run_op; rewrite Hdefault; run_on.
  - destruct (oxide.Client.FloatingIpCreate _ _ w) as [[O|err] w1]; run_on; eauto.
  - destruct (oxide.Client.FloatingIpView _ _ w) as [[O|err] w1]; run_on;
      [|destruct (is404 err); run_on]; eauto.
  - destruct (oxide.Client.FloatingIpDelete _ _ w) as [[err|] w1]; run_on;
      [destruct (is404 err); run_on|]; eauto.
Qed.

(** Goes through the attributes of the schema, given a lookup in it. *)
Ltac schema_cases H :=
  unfold Schema in H; cbn [schema.Attributes] in H;
  apply elem_of_list_to_map_2 in H; decompose_list_elem_of; simplify_eq.


(** X16. [Create] settles exactly the attributes the schema marks
    computed.  For every string field of the model and the attribute of the
    schema with its tag: after a successful [Create], a computed attribute
    holds a known value, and an attribute that is not computed holds what the
    plan held. *)
Theorem Create_settles_computed (f : modelField)
    (get : floatingIpResourceModel → types.String) (a : schema.StringAttribute)
    (ctx : Context) (pl : tfsdk.Plan) (st0 : tfsdk.State) (w w' : oxide.Client.World)
    (resp : resource.CreateResponse) (evs : list Event)
    (c : Context) (p : oxide.FloatingIpCreateParams) (O : oxide.FloatingIp) :
  stringField f = Some get →
  schema.Attributes Schema !! tfsdkTag f = Some (schema.String a) →
  Create ctx {| resource.Plan := pl |} (resource.newResponse st0) w = (resp, evs, w') →
  CallFloatingIpCreate c p (inl O) ∈ evs →
  ∃ m m', pl = Some m ∧ resource.State resp = Some m' ∧
    if schema.Computed a then ∃ v, get m' = types.StringValue v else get m' = get m.
Proof.
  intros Hget Hlookup Hrun Hin.
  destruct (Create_success _ _ _ _ _ _ _ _ _ _ Hrun Hin) as (m & -> & ->).
  exists m. eexists. split_and!; [done..|].
  schema_cases Hlookup; destruct f; simplify_eq; cbn in *; simplify_eq; cbn; eauto.
Qed.

End coverage.

(** ** The operations on the in-memory platform *)

Section examples.

Import memory.

(** On the in-memory platform a deleted floating IP stays deleted. *)
Lemma memDelete_removes (ref : string) (w : list oxide.FloatingIp) :
  existsb (hasId ref) (filter (λ o, oxide.Id o ≠ ref) w) = false.
Proof.
  induction w as [|o w IH]; [done|].
  rewrite filter_cons. destruct (decide (oxide.Id o ≠ ref)) as [Hne|Heq]; [|done].
  cbn. rewrite IH. unfold hasId. by rewrite bool_decide_eq_false_2.
Qed.

Lemma memory_deletedStaysDeleted : deletedStaysDeleted.
Proof.
  intros c c' p w _. cbn. unfold memDelete.
  destruct (existsb (hasId (oxide.DeleteFloatingIp p)) w) eqn:Hex; cbn.
  - by rewrite memDelete_removes.
  - by rewrite Hex.
Qed.

(** Create of the running example on an empty platform: the Create call
    carries the three declared fields and neither ip nor pool, and the state
    gains the identity and the timestamps. *)
Example Create_lbVip :
  Create Ambient {| resource.Plan := Some lbVip |} (resource.newResponse None) [] =
    ({| resource.State := Some lbVipState; resource.Diagnostics := [] |},
     [CallFloatingIpCreate (WithTimeout Ambient 30000000000)
        {| oxide.Project := "proj-1";
           oxide.Body := {| oxide.CreateDescription := "load balancer VIP";
                            oxide.CreateIp := EmptyString;
                            oxide.CreateName := "lb-vip";
                            oxide.CreatePool := EmptyString |} |}
        (inl lbVipObject);
      TflogTrace "created floatingIp with ID: fip-lb-vip"],
     [lbVipObject]).
Proof. reflexivity. Qed.

(** Read of a floating IP that is gone. *)
Example Read_lbVip_gone :
  Read Ambient {| resource.ReadState := Some lbVipState |}
      (resource.newResponse (Some lbVipState)) [] =
    ({| resource.State := None; resource.Diagnostics := [] |},
     [CallFloatingIpView (WithTimeout Ambient 600000000000)
        {| oxide.ViewFloatingIp := "fip-lb-vip" |} (inr (ObjectNotFound "fip-lb-vip"))],
     []).
Proof. reflexivity. Qed.

(** Delete of a floating IP that is gone. *)
Example Delete_lbVip_gone :
  Delete Ambient {| resource.DeleteState := Some lbVipState |}
      (resource.newResponse (Some lbVipState)) [] =
    ({| resource.State := Some lbVipState; resource.Diagnostics := [] |},
     [CallFloatingIpDelete (WithTimeout Ambient 600000000000)
        {| oxide.DeleteFloatingIp := "fip-lb-vip" |} (Some (ObjectNotFound "fip-lb-vip"));
      TflogTrace "deleted floatingIp with ID: fip-lb-vip"],
     []).
Proof. reflexivity. Qed.

(** Read on the out-of-order platform: the error is reported, the state is
    left as it was. *)
Example Read_lbVip_down :
  @Read _ _ downClient Ambient {| resource.ReadState := Some lbVipState |}
      (resource.newResponse (Some lbVipState)) tt =
    ({| resource.State := Some lbVipState;
        resource.Diagnostics :=
          [diag.NewErrorDiagnostic "Unable to read floatingIp:"
             "API error: Internal Server Error"] |},
     [CallFloatingIpView (WithTimeout Ambient 600000000000)
        {| oxide.ViewFloatingIp := "fip-lb-vip" |} (inr InternalError)],
     tt).
Proof. reflexivity. Qed.

(** The refresh of a state whose floating IP is gone from the platform. *)
Lemma Read_not_found_removes_witness :
  resource.State readGone.1.1 = None ∧ resource.Diagnostics readGone.1.1 = [].
Proof.
  apply (@Read_not_found_removes runtime helpers client
           Ambient (Some lbVipState) (Some lbVipState) [] readGone.2
           readGone.1.1 readGone.1.2 (WithTimeout Ambient 600000000000)
           {| oxide.ViewFloatingIp := "fip-lb-vip" |} (ObjectNotFound "fip-lb-vip")).
  - reflexivity.
  - left.
  - reflexivity.
Defined.

(** Two deletes in sequence of a floating IP the platform has: the first
    removes it, the second finds it gone. *)
Lemma Delete_idempotent_witness : resource.Diagnostics deleteSecond.1.1 = [].
Proof.
  apply (proj2 (proj2 (@Delete_idempotent runtime helpers client
                         Ambient Ambient (Some lbVipState) (Some lbVipState)
                         (Some lbVipState) [lbVipObject] deleteFirst.2 deleteSecond.2
                         deleteFirst.1.1 deleteSecond.1.1 deleteFirst.1.2 deleteSecond.1.2
                         eq_refl eq_refl))
           (WithTimeout Ambient 600000000000)
           {| oxide.DeleteFloatingIp := "fip-lb-vip" |}
           (Some (ObjectNotFound "fip-lb-vip"))).
  - left.
  - reflexivity.
Defined.

(** The second of the two deletes meets a platform that no longer has the
    floating IP, and reports nothing. *)
Example Delete_twice :
  deleteFirst.1.2 =
    [CallFloatingIpDelete (WithTimeout Ambient 600000000000)
       {| oxide.DeleteFloatingIp := "fip-lb-vip" |} None;
     TflogTrace "deleted floatingIp with ID: fip-lb-vip"] ∧
  deleteSecond =
    ({| resource.State := Some lbVipState; resource.Diagnostics := [] |},
     [CallFloatingIpDelete (WithTimeout Ambient 600000000000)
        {| oxide.DeleteFloatingIp := "fip-lb-vip" |} (Some (ObjectNotFound "fip-lb-vip"));
      TflogTrace "deleted floatingIp with ID: fip-lb-vip"],
     []).
Proof. split; reflexivity. Qed.

(** The refresh of a state whose floating IP is attached to an instance:
    the project id of the state becomes the one of the object. *)
Lemma Read_reflects_remote_witness :
  ∃ m', resource.State readAttached.1.1 = Some m' ∧
        ProjectID m' = types.StringValue "id-of-proj-1".
Proof.
  apply (proj1 (proj2 (proj2 (proj2 (@Read_reflects_remote runtime helpers client))))
           Ambient (Some lbVipState) (Some lbVipState) [lbVipAttached] readAttached.2
           readAttached.1.1 readAttached.1.2 (WithTimeout Ambient 600000000000)
           {| oxide.ViewFloatingIp := "fip-lb-vip" |} lbVipAttached).
  - reflexivity.
  - left.
Defined.

(** C4, as stated, fails: no field of the state holds the bound instance
    of the object.  A detached and an attached floating IP that agree
    otherwise are read into the same state. *)
Lemma Read_forgets_bound_instance :
  ¬ ∃ get : floatingIpResourceModel → types.String, ReadReflects get oxide.InstanceId.
Proof.
  intros [get Hget].
  destruct (Hget Ambient (Some lbVipState) (Some lbVipState) [lbVipObject] readDetached.2
              readDetached.1.1 readDetached.1.2 (WithTimeout Ambient 600000000000)
              {| oxide.ViewFloatingIp := "fip-lb-vip" |} lbVipObject)
    as (m1 & Hm1 & Hget1); [reflexivity | left |].
  destruct (Hget Ambient (Some lbVipState) (Some lbVipState) [lbVipAttached] readAttached.2
              readAttached.1.1 readAttached.1.2 (WithTimeout Ambient 600000000000)
              {| oxide.ViewFloatingIp := "fip-lb-vip" |} lbVipAttached)
    as (m2 & Hm2 & Hget2); [reflexivity | left |].
  assert (readDetached.1.1 = readAttached.1.1) as Hsame by reflexivity.
  rewrite Hsame, Hm2 in Hm1. injection Hm1 as ->.
  rewrite Hget2 in Hget1. discriminate Hget1.
Qed.

(** Create of the running example: the state gains the identity. *)
Lemma Create_merges_computed_witness :
  ∃ m', resource.State createLbVip.1.1 = Some m' ∧
        ID m' = types.StringValue "fip-lb-vip".
Proof.
  apply (proj1 (@Create_merges_computed runtime helpers client)
           Ambient (Some lbVip) None [] createLbVip.2
           createLbVip.1.1 createLbVip.1.2 (WithTimeout Ambient 30000000000)
           {| oxide.Project := "proj-1";
              oxide.Body := {| oxide.CreateDescription := "load balancer VIP";
                               oxide.CreateIp := EmptyString;
                               oxide.CreateName := "lb-vip";
                               oxide.CreatePool := EmptyString |} |}
           lbVipObject).
  - reflexivity.
  - left.
Defined.

(** C5, as stated, fails: the project identity and the pool identity of
    the object are not merged into the state.  The example declares the
    project by name and no pool; after Create the state still holds the name
    and no pool, not the identities the platform resolved them to. *)
Lemma Create_keeps_declared_project :
  ¬ CreateMerges ProjectID oxide.ProjectId ∧ ¬ CreateMerges IPPoolID oxide.IpPoolId.
Proof.
  split; intros Hmerge;
    destruct (Hmerge Ambient (Some lbVip) None [] createLbVip.2
                createLbVip.1.1 createLbVip.1.2 (WithTimeout Ambient 30000000000)
                {| oxide.Project := "proj-1";
                   oxide.Body := {| oxide.CreateDescription := "load balancer VIP";
                                    oxide.CreateIp := EmptyString;
                                    oxide.CreateName := "lb-vip";
                                    oxide.CreatePool := EmptyString |} |}
                lbVipObject)
      as (m' & Hm' & Hfield); [reflexivity | left | | reflexivity | left |];
    injection Hm' as <-; discriminate Hfield.
Qed.

(** Create of the running example when its name is taken. *)
Lemma Create_failure_atomic_witness :
  resource.State createTaken.1.1 = None ∧
  resource.Diagnostics createTaken.1.1 =
    [diag.NewErrorDiagnostic "Error creating floatingIp"
       "API error: already exists: floating-ip lb-vip"] ∧
  createTaken.1.2 =
    [CallFloatingIpCreate (WithTimeout Ambient 30000000000)
       {| oxide.Project := "proj-1";
          oxide.Body := {| oxide.CreateDescription := "load balancer VIP";
                           oxide.CreateIp := EmptyString;
                           oxide.CreateName := "lb-vip";
                           oxide.CreatePool := EmptyString |} |}
       (inr (ObjectAlreadyExists "lb-vip"))].
Proof.
  apply (@Create_failure_atomic runtime helpers client
           Ambient (Some lbVip) None [lbVipObject] createTaken.2
           createTaken.1.1 createTaken.1.2 (WithTimeout Ambient 30000000000)
           {| oxide.Project := "proj-1";
              oxide.Body := {| oxide.CreateDescription := "load balancer VIP";
                               oxide.CreateIp := EmptyString;
                               oxide.CreateName := "lb-vip";
                               oxide.CreatePool := EmptyString |} |}
           (ObjectAlreadyExists "lb-vip")).
  - reflexivity.
  - left.
Defined.

(** Create of the running example, which configures 30s for create: the
    call runs under the ambient context bounded by 30 seconds. *)
Lemma lifecycle_timeouts_witness :
  [] ⊆ resource.Diagnostics createLbVip.1.1 ∧
  (diag.HasError [] = true → remoteCalls createLbVip.1.2 = []) ∧
  (∀ e, e ∈ remoteCalls createLbVip.1.2 →
        eventContext e = Some (WithTimeout Ambient 30000000000)).
Proof.
  apply (proj1 (@lifecycle_timeouts runtime helpers client)
           Ambient lbVip None [] createLbVip.2 30000000000 []
           createLbVip.1.1 createLbVip.1.2).
  - reflexivity.
  - reflexivity.
Defined.

(** C7, as stated, fails for [Update]: it resolves no timeout.  With a
    timeout for update that is no duration, the resolver would report it;
    [Update] reports only that it is not supported. *)
Lemma Update_resolves_no_timeout : ¬ resolvesOwnTimeout "update" runUpdate.
Proof.
  intros Hresolves.
  destruct (Hresolves Ambient lbVipBadUpdateTimeout None [] []
              defaultTimeout
              [diag.NewErrorDiagnostic "Timeout Cannot Be Parsed"
                 ("timeout for " +:+ timeouts.quote "update" +:+ " cannot be parsed, "
                  +:+ memErrorString (InvalidDuration "soon"))]
              {| resource.State := None;
                 resource.Diagnostics :=
                   [diag.NewErrorDiagnostic "Error updating floatingIp"
                      "the oxide API currently does not support updating floatingIps"] |}
              [])
    as (Hreported & _); [reflexivity | reflexivity |].
  specialize (Hreported _ (list_elem_of_here _ _)).
  cbn in Hreported. decompose_list_elem_of. discriminate.
Qed.

(** C8, as stated, fails: the listed layout has ten entries, the bound
    instance among them, and the struct has nine fields, so the two cannot
    correspond field for field. *)
Lemma layout_not_mirrored : ¬ mirrorsLayout.
Proof.
  intros (f & Hinj & _).
  pose proof (inj_card f) as Hcard.
  vm_compute in Hcard. lia.
Qed.

(** Read and Delete of the zero model, whose ID is null. *)
Lemma no_local_identity_check_witness :
  (∃ res, remoteCalls readNoIdentity.1.2 =
            [CallFloatingIpView (WithTimeout Ambient 600000000000)
               {| oxide.ViewFloatingIp := EmptyString |} res]) ∧
  (∃ res, remoteCalls deleteNoIdentity.1.2 =
            [CallFloatingIpDelete (WithTimeout Ambient 600000000000)
               {| oxide.DeleteFloatingIp := EmptyString |} res]).
Proof.
  apply (@no_local_identity_check runtime helpers client
           Ambient zeroModel (Some zeroModel) [lbVipObject]).
  - left. reflexivity.
  - reflexivity.
  - reflexivity.
Defined.

(** Without identity, the calls go out with an empty reference and the
    platform answers that it finds nothing. *)
Example Read_without_identity :
  readNoIdentity =
    ({| resource.State := None; resource.Diagnostics := [] |},
     [CallFloatingIpView (WithTimeout Ambient 600000000000)
        {| oxide.ViewFloatingIp := EmptyString |} (inr (ObjectNotFound EmptyString))],
     [lbVipObject]).
Proof. reflexivity. Qed.

(** The refresh of the recorded example keeps its timeouts. *)
Lemma Read_preserves_timeouts_witness :
  ∃ m m', Some lbVipState = Some m ∧ resource.State readAttached.1.1 = Some m' ∧
    Timeouts m' = Timeouts m ∧
    m' = setTimeModified (TimeModified m')
           (setTimeCreated (TimeCreated m')
              (setProjectID (ProjectID m')
                 (setIPPoolID (IPPoolID m')
                    (setIP (IP m')
                       (setName (Name m')
                          (setID (ID m')
                             (setDescription (Description m') m))))))).
Proof.
  apply (@Read_preserves_timeouts runtime helpers client
           Ambient (Some lbVipState) (Some lbVipState) [lbVipAttached] readAttached.2
           readAttached.1.1 readAttached.1.2 (WithTimeout Ambient 600000000000)
           {| oxide.ViewFloatingIp := "fip-lb-vip" |} lbVipAttached).
  - reflexivity.
  - left.
Defined.

End examples.

(** ** Further runs on the in-memory platform *)

Section coverage_examples.

Import memory.

(** A Read without state: it fails before any call, and nothing changes. *)
Lemma no_call_no_change_witness :
  readNull.1.2 = [] ∧ readNull.2 = [lbVipObject] ∧ resource.State readNull.1.1 = None.
Proof.
  apply (proj1 (proj2 (@no_call_no_change runtime helpers client
                         Ambient [lbVipObject] readNull.2 (resource.newResponse None)
                         readNull.1.1 readNull.1.2 eq_refl))
           {| resource.ReadState := None |}).
  reflexivity.
Defined.

(** Delete handed a response with an error: the floating IP stays. *)
Lemma prior_error_short_circuits_witness :
  ∃ resp', Delete Ambient {| resource.DeleteState := Some lbVipState |}
             failedResponse [lbVipObject] = (resp', [], [lbVipObject]) ∧
           resource.State resp' = resource.State failedResponse.
Proof.
  apply (proj2 (proj2 (@prior_error_short_circuits runtime helpers client
                         Ambient [lbVipObject] failedResponse eq_refl))
           {| resource.DeleteState := Some lbVipState |}).
Defined.

(** Read on the platform that is out of order. *)
Lemma Read_other_error_reported_witness :
  resource.State readDown.1.1 = Some lbVipState ∧
  resource.Diagnostics readDown.1.1 =
    [diag.NewErrorDiagnostic "Unable to read floatingIp:"
       "API error: Internal Server Error"] ∧
  readDown.1.2 =
    [CallFloatingIpView (WithTimeout Ambient 600000000000)
       {| oxide.ViewFloatingIp := "fip-lb-vip" |} (inr InternalError)].
Proof.
  apply (@Read_other_error_reported runtime helpers downClient
           Ambient (Some lbVipState) (Some lbVipState) tt readDown.2
           readDown.1.1 readDown.1.2 (WithTimeout Ambient 600000000000)
           {| oxide.ViewFloatingIp := "fip-lb-vip" |} InternalError).
  - reflexivity.
  - left.
  - reflexivity.
Defined.

(** Delete on the platform that is out of order. *)
Lemma Delete_other_error_reported_witness :
  resource.State deleteDown.1.1 = Some lbVipState ∧
  resource.Diagnostics deleteDown.1.1 =
    [diag.NewErrorDiagnostic "Unable to delete floatingIp:"
       "API error: Internal Server Error"] ∧
  deleteDown.1.2 =
    [CallFloatingIpDelete (WithTimeout Ambient 600000000000)
       {| oxide.DeleteFloatingIp := "fip-lb-vip" |} (Some InternalError)].
Proof.
  apply (@Delete_other_error_reported runtime helpers downClient
           Ambient (Some lbVipState) (Some lbVipState) tt deleteDown.2
           deleteDown.1.1 deleteDown.1.2 (WithTimeout Ambient 600000000000)
           {| oxide.DeleteFloatingIp := "fip-lb-vip" |} InternalError).
  - reflexivity.
  - left.
  - reflexivity.
Defined.

(** The example and the same configuration written differently. *)
Lemma Create_sends_declared_only_witness :
  let out1 := runCreate Ambient lbVip (resource.newResponse None) [] in
  let out2 := runCreate Ambient lbVipRewritten (resource.newResponse None) [] in
  out1.1.2 = out2.1.2 ∧ out1.2 = out2.2 ∧
  resource.Diagnostics out1.1.1 = resource.Diagnostics out2.1.1.
Proof.
  apply (@Create_sends_declared_only runtime helpers client
           Ambient lbVip lbVipRewritten None []); reflexivity.
Defined.

(** The recorded example and a stale record of the same identity. *)
Lemma Read_by_identity_alone_witness :
  runRead Ambient lbVipState (resource.newResponse None) [lbVipAttached] =
  runRead Ambient lbVipStale (resource.newResponse None) [lbVipAttached].
Proof.
  apply (@Read_by_identity_alone runtime helpers client
           Ambient lbVipState lbVipStale None [lbVipAttached]); reflexivity.
Defined.

(** Read, and Read again. *)
Lemma Read_refresh_idempotent_witness : readAgain.1.1 = readAttached.1.1.
Proof.
  refine (proj2 (@Read_refresh_idempotent runtime helpers client
           Ambient Ambient (Some lbVipState) (Some lbVipState)
           [lbVipAttached] readAttached.2 readAgain.2
           readAttached.1.1 readAgain.1.1 readAttached.1.2 readAgain.1.2
           (WithTimeout Ambient 600000000000) (WithTimeout Ambient 600000000000)
           {| oxide.ViewFloatingIp := "fip-lb-vip" |}
           {| oxide.ViewFloatingIp := "fip-lb-vip" |}
           lbVipAttached (inl lbVipAttached) _ _ _ _) eq_refl).
  - reflexivity.
  - left.
  - reflexivity.
  - left.
Defined.

(** Create of the running example, then Read. *)
Lemma Create_then_Read_witness :
  ∃ m1 m2, resource.State createLbVip.1.1 = Some m1 ∧
    resource.State readCreated.1.1 = Some m2 ∧
    ID m2 = ID m1 ∧ TimeCreated m2 = TimeCreated m1 ∧
    TimeModified m2 = TimeModified m1 ∧ Timeouts m2 = Timeouts m1.
Proof.
  refine (proj2 (@Create_then_Read runtime helpers client
           Ambient Ambient (Some lbVip) None [] createLbVip.2 readCreated.2
           createLbVip.1.1 readCreated.1.1 createLbVip.1.2 readCreated.1.2
           (WithTimeout Ambient 30000000000) (WithTimeout Ambient 600000000000)
           {| oxide.Project := "proj-1";
              oxide.Body := {| oxide.CreateDescription := "load balancer VIP";
                               oxide.CreateIp := EmptyString;
                               oxide.CreateName := "lb-vip";
                               oxide.CreatePool := EmptyString |} |}
           {| oxide.ViewFloatingIp := "fip-lb-vip" |}
           lbVipObject (inl lbVipObject) _ _ _ _) eq_refl).
  - reflexivity.
  - left.
  - reflexivity.
  - left.
Defined.

(** After Create and Read of the running example the project is no longer
    the declared name but the identity the platform resolved it to. *)
Example Create_then_Read_lbVip :
  ProjectID <$> resource.State createLbVip.1.1 = Some (types.StringValue "proj-1") ∧
  ProjectID <$> resource.State readCreated.1.1 = Some (types.StringValue "id-of-proj-1").
Proof. split; reflexivity. Qed.

(** Create of the running example, then Delete. *)
Lemma Create_then_Delete_witness :
  oxide.DeleteFloatingIp {| oxide.DeleteFloatingIp := "fip-lb-vip" |} = oxide.Id lbVipObject.
Proof.
  apply (@Create_then_Delete runtime helpers client
           Ambient Ambient (Some lbVip) None [] createLbVip.2 deleteCreated.2
           createLbVip.1.1 deleteCreated.1.1 createLbVip.1.2 deleteCreated.1.2
           (WithTimeout Ambient 30000000000) (WithTimeout Ambient 600000000000)
           {| oxide.Project := "proj-1";
              oxide.Body := {| oxide.CreateDescription := "load balancer VIP";
                               oxide.CreateIp := EmptyString;
                               oxide.CreateName := "lb-vip";
                               oxide.CreatePool := EmptyString |} |}
           {| oxide.DeleteFloatingIp := "fip-lb-vip" |}
           lbVipObject None).
  - reflexivity.
  - left.
  - reflexivity.
  - left.
Defined.

(** Import of the example by its identity, then Read. *)
Example Import_then_Read_lbVip :
  imported = resource.newResponse (Some lbVipImported) ∧
  readImported.1.2 =
    [CallFloatingIpView (WithTimeout Ambient 600000000000)
       {| oxide.ViewFloatingIp := "fip-lb-vip" |} (inl lbVipAttached);
     TflogTrace "read floatingIp with ID: fip-lb-vip"] ∧
  ProjectID <$> resource.State readImported.1.1 = Some (types.StringValue "id-of-proj-1").
Proof. split_and!; reflexivity. Qed.

(** The example without timeouts runs under ten minutes. *)
Lemma default_timeout_applies_witness :
  (∃ p res, remoteCalls (runCreate Ambient lbVipNoTimeouts (resource.newResponse None) []).1.2 =
              [CallFloatingIpCreate (WithTimeout Ambient 600000000000) p res]) ∧
  (∃ p res, remoteCalls (runRead Ambient lbVipNoTimeouts (resource.newResponse None) []).1.2 =
              [CallFloatingIpView (WithTimeout Ambient 600000000000) p res]) ∧
  (∃ p res, remoteCalls (runDelete Ambient lbVipNoTimeouts (resource.newResponse None) []).1.2 =
              [CallFloatingIpDelete (WithTimeout Ambient 600000000000) p res]).
Proof.
  apply (@default_timeout_applies runtime helpers client
           Ambient lbVipNoTimeouts None []).
  reflexivity.
Defined.


(** The project of the running example: declared, and kept by Create. *)
Lemma Create_settles_computed_witness :
  ∃ m m', Some lbVip = Some m ∧ resource.State createLbVip.1.1 = Some m' ∧
          ProjectID m' = ProjectID m.
Proof.
  apply (@Create_settles_computed runtime helpers client
           FieldProjectID ProjectID
           {| schema.Required := true; schema.Optional := false; schema.Computed := false;
              schema.AttrDescription := "ID of the project that will contain the floating IP.";
              schema.PlanModifiers := [stringplanmodifier.RequiresReplace] |}
           Ambient (Some lbVip) None [] createLbVip.2
           createLbVip.1.1 createLbVip.1.2 (WithTimeout Ambient 30000000000)
           {| oxide.Project := "proj-1";
              oxide.Body := {| oxide.CreateDescription := "load balancer VIP";
                               oxide.CreateIp := EmptyString;
                               oxide.CreateName := "lb-vip";
                               oxide.CreatePool := EmptyString |} |}
           lbVipObject).
  - reflexivity.
  - vm_compute. reflexivity.
  - reflexivity.
  - left.
Defined.

End coverage_examples.
